(** * Spaced-repetition scheduling engine of the NARESHKA backend

    A shallow embedding of
      - [src/types/spacedRepetition.ts]      (types and [DEFAULT_CONFIG]),
      - [src/utils/intervalCalculator.ts]    (class [IntervalCalculator]),
      - [src/services/spacedRepetition.ts]   (class [SpacedRepetitionService]),
    together with the table [UserTheoryProgress] of the Prisma migrations.

    Conventions of the embedding.

    - A TypeScript [number] that carries a count, an interval, a step index
      or a millisecond timestamp is a [Z]; a [number] that carries a factor
      (ease factors, multipliers, the priority score) is an exact rational
      [Q].  Rounding of IEEE doubles is not modelled.
    - [Math.floor] is [Qfloor], [Math.max]/[Math.min] are [Z.max]/[Qmax]/[Qmin].
    - A value that may be [undefined] at run time (an array read out of
      range) is an [option Z], [None] standing for [undefined]; a [Date]
      built from it is an [option Z] too, [None] standing for an invalid date.
    - [new Date()] reads the wall clock.  The clock is an oracle
      [clock : nat -> Z]: the [n]-th evaluation of [new Date()] in a run
      yields [clock n] milliseconds.  Code that reads the clock lives in the
      state monad [Timed], whose state is the number of readings so far. *)

From Stdlib Require Import ZArith QArith Qround Qminmax Lia Lqa List Bool Sorted.
From stdpp Require Import gmap strings.
Import ListNotations.
Open Scope Z_scope.

(** ** Types ([types/spacedRepetition.ts]) *)

Inductive Rating : Type := again | hard | good | easy.

Inductive CardState : Type := NEW | LEARNING | REVIEW | RELEARNING.

Definition CardState_eqb (a b : CardState) : bool :=
  match a, b with
  | NEW, NEW | LEARNING, LEARNING | REVIEW, REVIEW | RELEARNING, RELEARNING => true
  | _, _ => false
  end.

Record ReviewResult : Type := {
  newInterval : option Z;
  newDueDate : option Z;
  newEaseFactor : Q;
  newCardState : CardState;
  newLearningStep : Z;
  lapseCountIncrement : Z
}.

Record NextReviewOptions : Type := {
  nro_again : option Z;
  nro_hard : option Z;
  nro_good : option Z;
  nro_easy : option Z
}.

Record SpacedRepetitionConfig : Type := {
  learningSteps : list Z;
  graduatingInterval : Z;
  easyInterval : Z;
  minEaseFactor : Q;
  maxEaseFactor : Q;
  initialEaseFactor : Q;
  lapseMultiplier : Q;
  hardMultiplier : Q;
  easyBonus : Q
}.

Definition DEFAULT_CONFIG : SpacedRepetitionConfig := {|
  learningSteps := [1; 10];
  graduatingInterval := 1;
  easyInterval := 4;
  minEaseFactor := 1.3;
  maxEaseFactor := 2.5;
  initialEaseFactor := 2.5;
  lapseMultiplier := 0.1;
  hardMultiplier := 1.2;
  easyBonus := 1.3
|}.

(** ** JavaScript primitives used by the calculator *)

(** [a[i]] on an array of numbers: [undefined] out of range. *)
Definition js_index (a : list Z) (i : Z) : option Z :=
  if i <? 0 then None else a !! Z.to_nat i.

(** [x || y] on numbers: [undefined] and [0] are falsy. *)
Definition js_or (x y : option Z) : option Z :=
  match x with
  | Some v => if v =? 0 then y else x
  | None => y
  end.

(** [a.length] *)
Definition js_length (a : list Z) : Z := Z.of_nat (length a).

(** One day in milliseconds, [1000 * 60 * 60 * 24]. *)
Definition MS_PER_DAY : Z := 1000 * 60 * 60 * 24.

(** [Math.floor((a - b) / (1000 * 60 * 60 * 24))] on two timestamps. *)
Definition floorDays (a b : Z) : Z :=
  Qfloor (inject_Z (a - b) / inject_Z MS_PER_DAY).

(** ** The clock monad *)

Definition Timed (A : Type) : Type := nat -> A * nat.

Definition ret {A : Type} (a : A) : Timed A := fun n => (a, n).

Definition bind {A B : Type} (m : Timed A) (k : A -> Timed B) : Timed B :=
  fun n => let (a, n') := m n in k a n'.

Notation "x <- m ;; k" := (bind m (fun x => k))
  (at level 100, m at next level, right associativity).

(** Run a computation from the [n]-th clock reading and keep its value. *)
Definition run {A : Type} (m : Timed A) (n : nat) : A := fst (m n).

(** ** [IntervalCalculator] ([utils/intervalCalculator.ts]) *)

Section IntervalCalculator.

Variable clock : nat -> Z.
Variable config : SpacedRepetitionConfig.

(** [new Date()], as milliseconds since the epoch. *)
Definition newDate : Timed Z := fun n => (clock n, S n).

Definition addMinutes (date minutes : Z) : Z := date + minutes * 60 * 1000.

Definition addDays (date days : Z) : Z := date + days * 24 * 60 * 60 * 1000.

Definition isMinuteInterval (interval : option Z) (cardState : CardState) : bool :=
  CardState_eqb cardState LEARNING || CardState_eqb cardState RELEARNING.

Definition daysToDays (days : option Z) : option Z := days.

Definition handleNewCard (rating : Rating) : Timed ReviewResult :=
  now <- newDate ;;
  match rating with
  | again =>
      ret {| newInterval := js_index (learningSteps config) 0;
             newDueDate := addMinutes now <$> js_index (learningSteps config) 0;
             newEaseFactor := initialEaseFactor config;
             newCardState := LEARNING;
             newLearningStep := 0;
             lapseCountIncrement := 0 |}
  | hard =>
      ret {| newInterval := js_index (learningSteps config) 0;
             newDueDate := addMinutes now <$> js_index (learningSteps config) 0;
             newEaseFactor := initialEaseFactor config;
             newCardState := LEARNING;
             newLearningStep := 0;
             lapseCountIncrement := 0 |}
  | good =>
      let nextStep :=
        js_or (js_index (learningSteps config) 1) (js_index (learningSteps config) 0) in
      ret {| newInterval := nextStep;
             newDueDate := addMinutes now <$> nextStep;
             newEaseFactor := initialEaseFactor config;
             newCardState := LEARNING;
             newLearningStep := 1;
             lapseCountIncrement := 0 |}
  | easy =>
      ret {| newInterval := Some (easyInterval config);
             newDueDate := Some (addDays now (easyInterval config));
             newEaseFactor := initialEaseFactor config;
             newCardState := REVIEW;
             newLearningStep := 0;
             lapseCountIncrement := 0 |}
  end.

Definition handleLearningCard (rating : Rating) (currentStep : Z) : Timed ReviewResult :=
  now <- newDate ;;
  match rating with
  | again =>
      ret {| newInterval := js_index (learningSteps config) 0;
             newDueDate := addMinutes now <$> js_index (learningSteps config) 0;
             newEaseFactor := initialEaseFactor config;
             newCardState := LEARNING;
             newLearningStep := 0;
             lapseCountIncrement := 0 |}
  | hard =>
      let currentStepInterval :=
        js_or (js_index (learningSteps config) currentStep)
              (js_index (learningSteps config) 0) in
      ret {| newInterval := currentStepInterval;
             newDueDate := addMinutes now <$> currentStepInterval;
             newEaseFactor := initialEaseFactor config;
             newCardState := LEARNING;
             newLearningStep := currentStep;
             lapseCountIncrement := 0 |}
  | good =>
      let nextStep := currentStep + 1 in
      if js_length (learningSteps config) <=? nextStep then
        ret {| newInterval := Some (graduatingInterval config);
               newDueDate := Some (addDays now (graduatingInterval config));
               newEaseFactor := initialEaseFactor config;
               newCardState := REVIEW;
               newLearningStep := 0;
               lapseCountIncrement := 0 |}
      else
        let nextStepInterval := js_index (learningSteps config) nextStep in
        ret {| newInterval := nextStepInterval;
               newDueDate := addMinutes now <$> nextStepInterval;
               newEaseFactor := initialEaseFactor config;
               newCardState := LEARNING;
               newLearningStep := nextStep;
               lapseCountIncrement := 0 |}
  | easy =>
      ret {| newInterval := Some (easyInterval config);
             newDueDate := Some (addDays now (easyInterval config));
             newEaseFactor := initialEaseFactor config;
             newCardState := REVIEW;
             newLearningStep := 0;
             lapseCountIncrement := 0 |}
  end.

Definition handleReviewCard (rating : Rating) (currentInterval : Z)
    (currentEaseFactor : Q) (daysLate : Z) : Timed ReviewResult :=
  now <- newDate ;;
  let adjustedInterval :=
    Z.max 1 (currentInterval + Qfloor (inject_Z daysLate * 0.25)) in
  match rating with
  | again =>
      let newEaseFactor' := Qmax (minEaseFactor config) (currentEaseFactor - 0.2) in
      (* computed by the source, then superseded by the first learning step *)
      let newInterval' :=
        Z.max 1 (Qfloor (inject_Z adjustedInterval * lapseMultiplier config)) in
      ret {| newInterval := js_index (learningSteps config) 0;
             newDueDate := addMinutes now <$> js_index (learningSteps config) 0;
             newEaseFactor := newEaseFactor';
             newCardState := RELEARNING;
             newLearningStep := 0;
             lapseCountIncrement := 1 |}
  | hard =>
      let newEaseFactor' := Qmax (minEaseFactor config) (currentEaseFactor - 0.15) in
      let newInterval' :=
        Z.max 1 (Qfloor (inject_Z adjustedInterval * hardMultiplier config)) in
      ret {| newInterval := Some newInterval';
             newDueDate := Some (addDays now newInterval');
             newEaseFactor := newEaseFactor';
             newCardState := REVIEW;
             newLearningStep := 0;
             lapseCountIncrement := 0 |}
  | good =>
      let newInterval' :=
        Z.max 1 (Qfloor (inject_Z adjustedInterval * currentEaseFactor)) in
      ret {| newInterval := Some newInterval';
             newDueDate := Some (addDays now newInterval');
             newEaseFactor := currentEaseFactor;
             newCardState := REVIEW;
             newLearningStep := 0;
             lapseCountIncrement := 0 |}
  | easy =>
      let newEaseFactor' := Qmin (maxEaseFactor config) (currentEaseFactor + 0.15) in
      let newInterval' :=
        Z.max 1 (Qfloor (inject_Z adjustedInterval * newEaseFactor' * easyBonus config)) in
      ret {| newInterval := Some newInterval';
             newDueDate := Some (addDays now newInterval');
             newEaseFactor := newEaseFactor';
             newCardState := REVIEW;
             newLearningStep := 0;
             lapseCountIncrement := 0 |}
  end.

Definition handleRelearningCard (rating : Rating) (currentInterval : Z)
    (currentEaseFactor : Q) (currentStep : Z) : Timed ReviewResult :=
  now <- newDate ;;
  match rating with
  | again =>
      ret {| newInterval := js_index (learningSteps config) 0;
             newDueDate := addMinutes now <$> js_index (learningSteps config) 0;
             newEaseFactor := currentEaseFactor;
             newCardState := RELEARNING;
             newLearningStep := 0;
             lapseCountIncrement := 0 |}
  | hard =>
      let currentStepInterval :=
        js_or (js_index (learningSteps config) currentStep)
              (js_index (learningSteps config) 0) in
      ret {| newInterval := currentStepInterval;
             newDueDate := addMinutes now <$> currentStepInterval;
             newEaseFactor := currentEaseFactor;
             newCardState := RELEARNING;
             newLearningStep := currentStep;
             lapseCountIncrement := 0 |}
  | good =>
      let nextStep := currentStep + 1 in
      if js_length (learningSteps config) <=? nextStep then
        let newInterval' :=
          Z.max 1 (Qfloor (inject_Z currentInterval * lapseMultiplier config)) in
        ret {| newInterval := Some newInterval';
               newDueDate := Some (addDays now newInterval');
               newEaseFactor := currentEaseFactor;
               newCardState := REVIEW;
               newLearningStep := 0;
               lapseCountIncrement := 0 |}
      else
        let nextStepInterval := js_index (learningSteps config) nextStep in
        ret {| newInterval := nextStepInterval;
               newDueDate := addMinutes now <$> nextStepInterval;
               newEaseFactor := currentEaseFactor;
               newCardState := RELEARNING;
               newLearningStep := nextStep;
               lapseCountIncrement := 0 |}
  | easy =>
      let newInterval' :=
        Z.max 1 (Qfloor (inject_Z currentInterval * lapseMultiplier config)) in
      ret {| newInterval := Some newInterval';
             newDueDate := Some (addDays now newInterval');
             newEaseFactor := currentEaseFactor;
             newCardState := REVIEW;
             newLearningStep := 0;
             lapseCountIncrement := 0 |}
  end.

(** The [default:] branch of the source's [switch] throws on a state outside
    the four known ones; [CardState] has no such value. *)
Definition calculateReview (currentState : CardState) (currentInterval : Z)
    (currentEaseFactor : Q) (currentLearningStep : Z) (rating : Rating)
    (daysLate : Z) : Timed ReviewResult :=
  match currentState with
  | NEW => handleNewCard rating
  | LEARNING => handleLearningCard rating currentLearningStep
  | REVIEW => handleReviewCard rating currentInterval currentEaseFactor daysLate
  | RELEARNING =>
      handleRelearningCard rating currentInterval currentEaseFactor currentLearningStep
  end.

Definition getNextReviewOptions (currentState : CardState) (currentInterval : Z)
    (currentEaseFactor : Q) (currentLearningStep : Z) (daysLate : Z)
    : Timed NextReviewOptions :=
  r_again <- calculateReview currentState currentInterval currentEaseFactor
               currentLearningStep again daysLate ;;
  r_hard <- calculateReview currentState currentInterval currentEaseFactor
              currentLearningStep hard daysLate ;;
  r_good <- calculateReview currentState currentInterval currentEaseFactor
              currentLearningStep good daysLate ;;
  r_easy <- calculateReview currentState currentInterval currentEaseFactor
              currentLearningStep easy daysLate ;;
  let pick (r : ReviewResult) :=
    if isMinuteInterval (newInterval r) (newCardState r)
    then newInterval r
    else daysToDays (newInterval r) in
  ret {| nro_again := pick r_again;
         nro_hard := pick r_hard;
         nro_good := pick r_good;
         nro_easy := pick r_easy |}.

(** [const daysOverdue = Math.max(0, Math.floor((now - dueDate) / day))] *)
Definition daysOverdue (now dueDate : Z) : Z := Z.max 0 (floorDays now dueDate).

Definition calculatePriority (dueDate : option Z) (easeFactor : Q) (lapseCount : Z)
    (cardState : CardState) : Timed Q :=
  match dueDate with
  | None => ret 0%Q
  | Some due =>
      now <- newDate ;;
      let priority := (inject_Z (daysOverdue now due) * 10)%Q in
      let priority := (priority + (maxEaseFactor config - easeFactor) * 5)%Q in
      let priority := (priority + inject_Z lapseCount * 2)%Q in
      let priority :=
        if CardState_eqb cardState LEARNING || CardState_eqb cardState RELEARNING
        then (priority + 100)%Q
        else priority in
      ret priority
  end.

End IntervalCalculator.

(** ** Persistent state (Prisma migrations, tables [TheoryCard] and
       [UserTheoryProgress]) *)

Record TheoryCard : Type := {
  card_id : string;
  ankiGuid : string;
  cardType : string;
  deck : string;
  category : string;
  subCategory : option string;
  questionBlock : string;
  answerBlock : string;
  tags : list string;
  orderIndex : Z;
  card_createdAt : Z;
  card_updatedAt : Z
}.

(** One row of [UserTheoryProgress].  [easeFactor] is [DECIMAL(3,2)]; the
    values the engine writes are multiples of 0.05, so no rounding occurs.
    The primary key [id] is a generated text in the database; here it is the
    number of the row in creation order. *)
Record UserTheoryProgress : Type := {
  p_id : nat;
  p_userId : Z;
  p_cardId : string;
  p_solvedCount : Z;
  p_createdAt : Z;
  p_updatedAt : Z;
  p_cardState : CardState;
  p_dueDate : option Z;
  p_easeFactor : Q;
  p_interval : Z;
  p_lapseCount : Z;
  p_lastReviewDate : option Z;
  p_learningStep : Z;
  p_reviewCount : Z
}.

(** The database: users, the card catalogue in storage order, and the
    progress rows under their unique key [(userId, cardId)]. *)
Record Db : Type := {
  users : gset Z;
  theoryCards : list TheoryCard;
  progressEntries : gmap (Z * string) UserTheoryProgress;
  nextId : nat
}.

Inductive PrismaError : Type :=
  | ForeignKeyViolation
  | InvalidDateValue.

Inductive Outcome (A : Type) : Type :=
  | Ok (a : A)
  | Throw (e : PrismaError).
Arguments Ok {A} a.
Arguments Throw {A} e.

Definition isOk {A : Type} (o : Outcome A) : bool :=
  match o with
  | Ok _ => true
  | Throw _ => false
  end.

Definition cardExists (d : Db) (cardId : string) : bool :=
  existsb (fun c => String.eqb (card_id c) cardId) (theoryCards d).

(** [prisma.userTheoryProgress.findUnique({ where: { userId_cardId } })] *)
Definition findUnique (d : Db) (userId : Z) (cardId : string)
    : option UserTheoryProgress :=
  progressEntries d !! (userId, cardId).

(** The write of an [update] whose [where] is the unique key
    [(userId, cardId)]. *)
Definition putProgress (d : Db) (userId : Z) (cardId : string)
    (p : UserTheoryProgress) : Db :=
  {| users := users d;
     theoryCards := theoryCards d;
     progressEntries := <[(userId, cardId) := p]> (progressEntries d);
     nextId := nextId d |}.

(** The row written by both [create] payloads of the service (they are the
    same literal): the NEW-state defaults. *)
Definition initialProgress (id : nat) (userId : Z) (cardId : string) (t : Z)
    : UserTheoryProgress :=
  {| p_id := id;
     p_userId := userId;
     p_cardId := cardId;
     p_solvedCount := 0;
     p_createdAt := t;
     p_updatedAt := t;
     p_cardState := NEW;
     p_dueDate := None;
     p_easeFactor := 2.5;
     p_interval := 1;
     p_lapseCount := 0;
     p_lastReviewDate := None;
     p_learningStep := 0;
     p_reviewCount := 0 |}.

Section SpacedRepetitionService.

Variable clock : nat -> Z.

(** [prisma.userTheoryProgress.create] with the NEW-state payload.  The two
    foreign keys of the table are checked; the timestamps come from the
    clock. *)
Definition createProgress (d : Db) (userId : Z) (cardId : string)
    : Timed (Outcome UserTheoryProgress * Db) :=
  if bool_decide (userId ∈ users d) && cardExists d cardId then
    t <- newDate clock ;;
    let p := initialProgress (nextId d) userId cardId t in
    ret (Ok p,
         {| users := users d;
            theoryCards := theoryCards d;
            progressEntries := <[(userId, cardId) := p]> (progressEntries d);
            nextId := S (nextId d) |})
  else ret (Throw ForeignKeyViolation, d).

(** The [data] of the [update] in [reviewCard], applied to the stored row.
    Prisma leaves a column alone when its value is [undefined]; the
    calculator returns an undefined interval only together with an invalid
    due date, which aborts the update before anything is written. *)
Definition reviewUpdate (reviewResult : ReviewResult) (newDue : Z) (now : Z)
    (p : UserTheoryProgress) : UserTheoryProgress :=
  {| p_id := p_id p;
     p_userId := p_userId p;
     p_cardId := p_cardId p;
     p_solvedCount := p_solvedCount p + 1;
     p_createdAt := p_createdAt p;
     p_updatedAt := now;
     p_cardState := newCardState reviewResult;
     p_dueDate := Some newDue;
     p_easeFactor := newEaseFactor reviewResult;
     p_interval := default (p_interval p) (newInterval reviewResult);
     p_lapseCount := p_lapseCount p + lapseCountIncrement reviewResult;
     p_lastReviewDate := Some now;
     p_learningStep := newLearningStep reviewResult;
     p_reviewCount := p_reviewCount p + 1 |}.

Record ReviewResponse : Type := {
  resp_userId : Z;
  resp_cardId : string;
  resp_newInterval : option Z;
  resp_newDueDate : Z;
  resp_easeFactor : Q;
  resp_cardState : CardState;
  resp_reviewCount : Z;
  resp_lapseCount : Z;
  resp_nextReviewIntervals : NextReviewOptions
}.

(** [reviewCard(userId, cardId, rating, responseTime?)].  The calculator of
    the service is built without argument, hence over [DEFAULT_CONFIG].
    An invalid [Date] in the update payload is rejected by the client. *)
Definition reviewCard (userId : Z) (cardId : string) (rating : Rating)
    (responseTime : option Z) (d : Db) : Timed (Outcome ReviewResponse * Db) :=
  found <- match findUnique d userId cardId with
           | Some p => ret (Ok p, d)
           | None => createProgress d userId cardId
           end ;;
  match found with
  | (Throw e, d1) => ret (Throw e, d1)
  | (Ok progress, d1) =>
      now <- newDate clock ;;
      let daysLate :=
        match p_dueDate progress with
        | Some due => Z.max 0 (floorDays now due)
        | None => 0
        end in
      reviewResult <- calculateReview clock DEFAULT_CONFIG (p_cardState progress)
                        (p_interval progress) (p_easeFactor progress)
                        (p_learningStep progress) rating daysLate ;;
      match newDueDate reviewResult with
      | None => ret (Throw InvalidDateValue, d1)
      | Some newDue =>
          let updatedProgress := reviewUpdate reviewResult newDue now progress in
          let d2 := putProgress d1 userId cardId updatedProgress in
          nextReviewIntervals <- getNextReviewOptions clock DEFAULT_CONFIG
                                   (newCardState reviewResult)
                                   (default 0 (newInterval reviewResult))
                                   (newEaseFactor reviewResult)
                                   (newLearningStep reviewResult) 0 ;;
          ret (Ok {| resp_userId := userId;
                     resp_cardId := cardId;
                     resp_newInterval := newInterval reviewResult;
                     resp_newDueDate := newDue;
                     resp_easeFactor := newEaseFactor reviewResult;
                     resp_cardState := newCardState reviewResult;
                     resp_reviewCount := p_reviewCount updatedProgress;
                     resp_lapseCount := p_lapseCount updatedProgress;
                     resp_nextReviewIntervals := nextReviewIntervals |},
               d2)
      end
  end.

(** The [update] payload of the [upsert] in [resetCard]. *)
Definition resetUpdate (now : Z) (p : UserTheoryProgress) : UserTheoryProgress :=
  {| p_id := p_id p;
     p_userId := p_userId p;
     p_cardId := p_cardId p;
     p_solvedCount := 0;
     p_createdAt := p_createdAt p;
     p_updatedAt := now;
     p_cardState := NEW;
     p_dueDate := None;
     p_easeFactor := 2.5;
     p_interval := 1;
     p_lapseCount := 0;
     p_lastReviewDate := None;
     p_learningStep := 0;
     p_reviewCount := 0 |}.

(** [resetCard(userId, cardId)]: one [upsert].  [new Date()] of the update
    payload is evaluated when the argument object is built. *)
Definition resetCard (userId : Z) (cardId : string) (d : Db)
    : Timed (Outcome unit * Db) :=
  now <- newDate clock ;;
  match findUnique d userId cardId with
  | Some p => ret (Ok tt, putProgress d userId cardId (resetUpdate now p))
  | None =>
      created <- createProgress d userId cardId ;;
      match created with
      | (Ok _, d1) => ret (Ok tt, d1)
      | (Throw e, d1) => ret (Throw e, d1)
      end
  end.

(** *** [getDueCards] *)

Record DueCard : Type := {
  dc_card : TheoryCard;
  dc_dueDate : option Z;
  dc_cardState : CardState;
  dc_interval : Z;
  dc_easeFactor : Q;
  dc_reviewCount : Z;
  dc_lapseCount : Z;
  dc_isOverdue : bool;
  dc_daysSinceLastReview : option Z;
  dc_priority : Q
}.

(** [stateFilter.includes(cardState)] *)
Definition includes (stateFilter : list CardState) (cardState : CardState) : bool :=
  existsb (CardState_eqb cardState) stateFilter.

Definition isLearningState (cardState : CardState) : bool :=
  CardState_eqb cardState LEARNING || CardState_eqb cardState RELEARNING.

(** The time checks of the loop body on a row with progress: [true] when
    the iteration ends with [continue]. *)
Definition notYetDue (now : Z) (progress : UserTheoryProgress) : bool :=
  match p_dueDate progress with
  | None => false
  | Some due =>
      (isLearningState (p_cardState progress) && (now <? due))
      || (CardState_eqb (p_cardState progress) REVIEW
          && (let daysDiff := floorDays now due in daysDiff <? 0))
  end.

(** One iteration of the [for] loop: [None] when nothing is pushed. *)
Definition processCard (now : Z) (includeNew : bool) (stateFilter : list CardState)
    (card : TheoryCard) (entries : list UserTheoryProgress) : Timed (option DueCard) :=
  match head entries with
  | None =>
      if includeNew then
        priority <- calculatePriority clock DEFAULT_CONFIG None 2.5 0 NEW ;;
        ret (Some {| dc_card := card;
                     dc_dueDate := None;
                     dc_cardState := NEW;
                     dc_interval := 1;
                     dc_easeFactor := 2.5;
                     dc_reviewCount := 0;
                     dc_lapseCount := 0;
                     dc_isOverdue := false;
                     dc_daysSinceLastReview := None;
                     dc_priority := priority |})
      else ret None
  | Some progress =>
      let cardState := p_cardState progress in
      if negb (includes stateFilter cardState) then ret None
      else if notYetDue now progress then ret None
      else
        let isOverdue :=
          match p_dueDate progress with
          | Some due => due <? now
          | None => false
          end in
        let daysSinceLastReview :=
          (fun last => floorDays now last) <$> p_lastReviewDate progress in
        priority <- calculatePriority clock DEFAULT_CONFIG (p_dueDate progress)
                      (p_easeFactor progress) (p_lapseCount progress) cardState ;;
        ret (Some {| dc_card := card;
                     dc_dueDate := p_dueDate progress;
                     dc_cardState := cardState;
                     dc_interval := p_interval progress;
                     dc_easeFactor := p_easeFactor progress;
                     dc_reviewCount := p_reviewCount progress;
                     dc_lapseCount := p_lapseCount progress;
                     dc_isOverdue := isOverdue;
                     dc_daysSinceLastReview := daysSinceLastReview;
                     dc_priority := priority |})
  end.

Fixpoint processCards (now : Z) (includeNew : bool) (stateFilter : list CardState)
    (cardsData : list (TheoryCard * list UserTheoryProgress))
    (processedCards : list DueCard) : Timed (list DueCard) :=
  match cardsData with
  | [] => ret processedCards
  | (card, entries) :: rest =>
      pushed <- processCard now includeNew stateFilter card entries ;;
      processCards now includeNew stateFilter rest
        (match pushed with
         | Some dueCard => processedCards ++ [dueCard]
         | None => processedCards
         end)
  end.

(** [.sort((a, b) => b.priority - a.priority)]: a stable sort, highest
    priority first.  [insertByPriority x l] puts [x], which precedes the
    members of [l] in the unsorted array, before the first member whose
    priority is not higher. *)
Fixpoint insertByPriority (x : DueCard) (l : list DueCard) : list DueCard :=
  match l with
  | [] => [x]
  | y :: l' =>
      if Qlt_le_dec (dc_priority x) (dc_priority y)
      then y :: insertByPriority x l'
      else x :: y :: l'
  end.

Definition sortByPriority (l : list DueCard) : list DueCard :=
  foldr insertByPriority [] l.

(** [prisma.theoryCard.findMany({ include: { progressEntries: { where:
    { userId } } }, take })]: the catalogue in storage order, each card with
    the rows of this user (at most one, by the unique key). *)
Definition findManyWithProgress (d : Db) (userId : Z) (take' : nat)
    : list (TheoryCard * list UserTheoryProgress) :=
  take take'
    (map (fun card =>
            (card,
             match progressEntries d !! (userId, card_id card) with
             | Some p => [p]
             | None => []
             end))
         (theoryCards d)).

(** [getDueCards(userId, limit, includeNew, includeLearning, includeReview)].
    The route admits only [1 <= limit <= 100], so [limit] is a [nat]. *)
Definition getDueCards (userId : Z) (limit : nat)
    (includeNew includeLearning includeReview : bool) (d : Db)
    : Timed (list DueCard) :=
  now <- newDate clock ;;
  let stateFilter :=
    (if includeNew then [NEW] else [])
    ++ (if includeLearning then [LEARNING; RELEARNING] else [])
    ++ (if includeReview then [REVIEW] else []) in
  let cardsData := findManyWithProgress d userId (limit * 2) in
  processedCards <- processCards now includeNew stateFilter cardsData [] ;;
  ret (take limit (sortByPriority processedCards)).

End SpacedRepetitionService.

(** ** Reading an outcome relative to the clock *)

(** The outcome with its due date expressed as an offset from the clock
    reading [now] the handler obtained. *)
Definition sinceReading (now : Z) (r : ReviewResult) : ReviewResult :=
  {| newInterval := newInterval r;
     newDueDate := (fun due => due - now) <$> newDueDate r;
     newEaseFactor := newEaseFactor r;
     newCardState := newCardState r;
     newLearningStep := newLearningStep r;
     lapseCountIncrement := lapseCountIncrement r |}.

(** [options[rating]] on the object returned by [getNextReviewOptions]. *)
Definition optionFor (rating : Rating) (options : NextReviewOptions) : option Z :=
  match rating with
  | again => nro_again options
  | hard => nro_hard options
  | good => nro_good options
  | easy => nro_easy options
  end.

(** The row a review starts from: the stored one, or the NEW-state row the
    service creates first when there is none. *)
Definition rowBeforeReview (clock : nat -> Z) (userId : Z) (cardId : string)
    (d : Db) (n : nat) : UserTheoryProgress :=
  match findUnique d userId cardId with
  | Some p => p
  | None => initialProgress (nextId d) userId cardId (clock n)
  end.

(** ** The read-only operations of [SpacedRepetitionService] *)

Record CardStats : Type := {
  cs_cardId : string;
  cs_userId : Z;
  cs_totalReviews : Z;
  cs_lapseCount : Z;
  cs_easeFactor : Q;
  cs_currentInterval : Z;
  cs_cardState : CardState;
  cs_dueDate : option Z;
  cs_lastReviewDate : option Z;
  cs_averageResponseTime : option Z;
  cs_retentionRate : Q;
  cs_nextReviewIntervals : NextReviewOptions
}.

Record CardCounts : Type := {
  cc_new : Z;
  cc_learning : Z;
  cc_review : Z;
  cc_total : Z
}.

(** The rows of [UserTheoryProgress] whose column [userId] is [userId]. *)
Definition rowsOfUser (d : Db) (userId : Z) : list UserTheoryProgress :=
  List.filter (fun p => p_userId p =? userId)
    (map snd (map_to_list (progressEntries d))).

Definition countInState (rows : list UserTheoryProgress) (s : CardState) : Z :=
  Z.of_nat (length (List.filter (fun p => CardState_eqb (p_cardState p) s) rows)).

(** [groupBy({ by: ["cardState"], _count: { cardState: true } })]: one group
    per state that has a row, with the number of its rows. *)
Definition groupByCardState (rows : list UserTheoryProgress) : list (CardState * Z) :=
  List.filter (fun g => 0 <? snd g)
    (map (fun s => (s, countInState rows s)) [NEW; LEARNING; REVIEW; RELEARNING]).

(** The body of the [for] loop of [getCardCounts] on one group: the counts
    and [cardsWithProgress] after it. *)
Definition countGroup (acc : CardCounts * Z) (group : CardState * Z) : CardCounts * Z :=
  let (counts, cardsWithProgress) := acc in
  let (cardState, count) := group in
  let cardsWithProgress := cardsWithProgress + count in
  if CardState_eqb cardState NEW then
    ({| cc_new := cc_new counts + count; cc_learning := cc_learning counts;
        cc_review := cc_review counts; cc_total := cc_total counts |},
     cardsWithProgress)
  else if CardState_eqb cardState LEARNING || CardState_eqb cardState RELEARNING then
    ({| cc_new := cc_new counts; cc_learning := cc_learning counts + count;
        cc_review := cc_review counts; cc_total := cc_total counts |},
     cardsWithProgress)
  else if CardState_eqb cardState REVIEW then
    ({| cc_new := cc_new counts; cc_learning := cc_learning counts;
        cc_review := cc_review counts + count; cc_total := cc_total counts |},
     cardsWithProgress)
  else (counts, cardsWithProgress).

Module Service.
Section Service.

Variable clock : nat -> Z.

(** [getCardStats(userId, cardId)] *)
Definition getCardStats (userId : Z) (cardId : string) (d : Db)
    : Timed (option CardStats) :=
  match findUnique d userId cardId with
  | None => ret None
  | Some progress =>
      nextReviewIntervals <- getNextReviewOptions clock DEFAULT_CONFIG
                               (p_cardState progress) (p_interval progress)
                               (p_easeFactor progress) (p_learningStep progress) 0 ;;
      let retentionRate :=
        if 0 <? p_reviewCount progress then
          Qmax 0
            (inject_Z (p_reviewCount progress - p_lapseCount progress)
             / inject_Z (p_reviewCount progress) * 100)
        else 0%Q in
      ret (Some {| cs_cardId := cardId;
                   cs_userId := userId;
                   cs_totalReviews := p_reviewCount progress;
                   cs_lapseCount := p_lapseCount progress;
                   cs_easeFactor := p_easeFactor progress;
                   cs_currentInterval := p_interval progress;
                   cs_cardState := p_cardState progress;
                   cs_dueDate := p_dueDate progress;
                   cs_lastReviewDate := p_lastReviewDate progress;
                   cs_averageResponseTime := None;
                   cs_retentionRate := retentionRate;
                   cs_nextReviewIntervals := nextReviewIntervals |})
  end.

(** [getNextReviewOptions(userId, cardId)] of the service. *)
Definition getNextReviewOptions (userId : Z) (cardId : string) (d : Db)
    : Timed NextReviewOptions :=
  match findUnique d userId cardId with
  | None => getNextReviewOptions clock DEFAULT_CONFIG NEW 1 2.5 0 0
  | Some progress =>
      now <- newDate clock ;;
      let daysLate :=
        match p_dueDate progress with
        | Some due => Z.max 0 (floorDays now due)
        | None => 0
        end in
      getNextReviewOptions clock DEFAULT_CONFIG (p_cardState progress)
        (p_interval progress) (p_easeFactor progress) (p_learningStep progress)
        daysLate
  end.

(** [getCardCounts(userId)].  The source reads the clock first and does not
    use the reading. *)
Definition getCardCounts (userId : Z) (d : Db) : Timed CardCounts :=
  now <- newDate clock ;;
  let allCards := Z.of_nat (length (theoryCards d)) in
  let progressCounts := groupByCardState (rowsOfUser d userId) in
  let counts := {| cc_new := 0; cc_learning := 0; cc_review := 0; cc_total := allCards |} in
  let (counts, cardsWithProgress) := fold_left countGroup progressCounts (counts, 0) in
  ret {| cc_new := cc_new counts + (allCards - cardsWithProgress);
         cc_learning := cc_learning counts;
         cc_review := cc_review counts;
         cc_total := cc_total counts |}.

End Service.
End Service.

(** The database after the [create] of a first review or reset. *)
Definition afterCreate (d : Db) (userId : Z) (cardId : string)
    (p : UserTheoryProgress) : Db :=
  {| users := users d;
     theoryCards := theoryCards d;
     progressEntries := <[(userId, cardId) := p]> (progressEntries d);
     nextId := S (nextId d) |}.

(** ** The progress routes ([routes/theory.ts]) and [attachUserRole] *)

Inductive UserRole : Type := GUEST | USER | ADMIN.

Definition UserRole_eqb (a b : UserRole) : bool :=
  match a, b with
  | GUEST, GUEST | USER, USER | ADMIN, ADMIN => true
  | _, _ => false
  end.

(** What a route hands to [res.json]. *)
Inductive Body : Type :=
  | Message (message : string)
  | DueCardsBody (dueCards : list DueCard)
  | ReviewBody (reviewResult : ReviewResponse)
  | IntervalsBody (intervals : NextReviewOptions)
  | CountsBody (stats : CardCounts)
  | ProgressBody (userId : Z) (cardId : string) (solvedCount : Z).

Record Reply : Type := {
  status : Z;
  body : Body
}.

(** [rating] of the request body checked against [validRatings]; a value
    that is missing or is not one of the four strings is [None]. *)
Definition parseRating (rating : option string) : option Rating :=
  match rating with
  | Some "again"%string => Some again
  | Some "hard"%string => Some hard
  | Some "good"%string => Some good
  | Some "easy"%string => Some easy
  | _ => None
  end.

(** [message.includes("not found")] *)
Definition includesNotFound (message : string) : bool :=
  match String.index 0 "not found" message with
  | Some _ => true
  | None => false
  end.

Section Routes.

Variable clock : nat -> Z.

(** The column [role] of the table [User], and the message of the errors
    the database client throws: neither is fixed by the sources at hand. *)
Variable roleOf : Z -> UserRole.
Variable messageOf : PrismaError -> string.

(** The middleware [attachUserRole]: GUEST without a session user or when
    the user is not in the database, the user's role otherwise.  A session
    without [userId], and the user id 0, are falsy. *)
Definition attachUserRole (d : Db) (sessionUserId : option Z) : UserRole :=
  match sessionUserId with
  | None => GUEST
  | Some userId =>
      if userId =? 0 then GUEST
      else if bool_decide (userId ∈ users d) then roleOf userId
      else GUEST
  end.

(** The guard every progress route starts with:
    [if (req.userRole === "GUEST" || !userId) return res.status(401)...]. *)
Definition authorized (d : Db) (sessionUserId : option Z) (message : string)
    (handler : Z -> Timed (Reply * Db)) : Timed (Reply * Db) :=
  match sessionUserId with
  | None => ret ({| status := 401; body := Message message |}, d)
  | Some userId =>
      if UserRole_eqb (attachUserRole d sessionUserId) GUEST || (userId =? 0)
      then ret ({| status := 401; body := Message message |}, d)
      else handler userId
  end.

(** [GET /cards/due].  [limitNum] is the value of [parseInt(limit, 10)],
    [None] for NaN; the flags are the query strings, compared with
    ["true"]. *)
Definition dueCardsRoute (sessionUserId : option Z) (limitNum : option Z)
    (includeNew includeLearning includeReview : string) (d : Db)
    : Timed (Reply * Db) :=
  authorized d sessionUserId
    "Требуется авторизация для получения карточек к повторению"
    (fun userId =>
       match limitNum with
       | None =>
           ret ({| status := 400;
                   body := Message "Limit must be a number between 1 and 100" |}, d)
       | Some limit =>
           if (limit <? 1) || (100 <? limit) then
             ret ({| status := 400;
                     body := Message "Limit must be a number between 1 and 100" |}, d)
           else
             dueCards <- getDueCards clock userId (Z.to_nat limit)
                           (String.eqb includeNew "true")
                           (String.eqb includeLearning "true")
                           (String.eqb includeReview "true") d ;;
             ret ({| status := 200; body := DueCardsBody dueCards |}, d)
       end).

(** [POST /cards/:cardId/review] *)
Definition reviewRoute (sessionUserId : option Z) (cardId : string)
    (rating : option string) (d : Db) : Timed (Reply * Db) :=
  authorized d sessionUserId "Требуется авторизация для повторения карточек"
    (fun userId =>
       match parseRating rating with
       | None =>
           ret ({| status := 400;
                   body := Message "Invalid rating. Must be one of: again, hard, good, easy" |},
                d)
       | Some rating' =>
           reviewed <- reviewCard clock userId cardId rating' None d ;;
           match reviewed with
           | (Ok reviewResult, d') =>
               ret ({| status := 200; body := ReviewBody reviewResult |}, d')
           | (Throw error, d') =>
               if includesNotFound (messageOf error)
               then ret ({| status := 404; body := Message (messageOf error) |}, d')
               else ret ({| status := 500;
                            body := Message "Failed to process card review" |}, d')
           end
       end).

(** [POST /cards/:cardId/reset] *)
Definition resetRoute (sessionUserId : option Z) (cardId : string) (d : Db)
    : Timed (Reply * Db) :=
  authorized d sessionUserId "Требуется авторизация для сброса прогресса"
    (fun userId =>
       if negb (cardExists d cardId) then
         ret ({| status := 404; body := Message "Theory card not found" |}, d)
       else
         done <- resetCard clock userId cardId d ;;
         match done with
         | (Ok _, d') =>
             ret ({| status := 200; body := Message "Card progress reset successfully" |}, d')
         | (Throw _, d') =>
             ret ({| status := 500; body := Message "Failed to reset card progress" |}, d')
         end).

(** [GET /cards/:cardId/intervals] *)
Definition intervalsRoute (sessionUserId : option Z) (cardId : string) (d : Db)
    : Timed (Reply * Db) :=
  authorized d sessionUserId
    "Требуется авторизация для получения интервалов повторения"
    (fun userId =>
       if negb (cardExists d cardId) then
         ret ({| status := 404; body := Message "Theory card not found" |}, d)
       else
         intervals <- Service.getNextReviewOptions clock userId cardId d ;;
         ret ({| status := 200; body := IntervalsBody intervals |}, d)).

(** [GET /stats] *)
Definition statsRoute (sessionUserId : option Z) (d : Db) : Timed (Reply * Db) :=
  authorized d sessionUserId "Требуется авторизация для просмотра статистики"
    (fun userId =>
       stats <- Service.getCardCounts clock userId d ;;
       ret ({| status := 200; body := CountsBody stats |}, d)).

(** The two writes of [PATCH /cards/:cardId/progress].  A row created by
    the route takes the column defaults of the table, which are the values
    of [initialProgress], with the [solvedCount] of the payload; a write that
    changes a column stamps [updatedAt] with the clock. *)
Definition withSolvedCount (p : UserTheoryProgress) (solvedCount updatedAt : Z)
    : UserTheoryProgress :=
  {| p_id := p_id p;
     p_userId := p_userId p;
     p_cardId := p_cardId p;
     p_solvedCount := solvedCount;
     p_createdAt := p_createdAt p;
     p_updatedAt := updatedAt;
     p_cardState := p_cardState p;
     p_dueDate := p_dueDate p;
     p_easeFactor := p_easeFactor p;
     p_interval := p_interval p;
     p_lapseCount := p_lapseCount p;
     p_lastReviewDate := p_lastReviewDate p;
     p_learningStep := p_learningStep p;
     p_reviewCount := p_reviewCount p |}.

(** [upsert({ create: { userId, cardId, solvedCount }, update })]: [update]
    is the new [solvedCount] of an existing row, [None] for the empty
    update. *)
Definition upsertSolvedCount (userId : Z) (cardId : string) (created : Z)
    (update : option (Z -> Z)) (d : Db) : Timed (Outcome UserTheoryProgress * Db) :=
  match findUnique d userId cardId with
  | Some p =>
      match update with
      | Some f =>
          t <- newDate clock ;;
          let p' := withSolvedCount p (f (p_solvedCount p)) t in
          ret (Ok p', putProgress d userId cardId p')
      | None => ret (Ok p, d)
      end
  | None =>
      if bool_decide (userId ∈ users d) && cardExists d cardId then
        t <- newDate clock ;;
        let p := withSolvedCount (initialProgress (nextId d) userId cardId t) created t in
        ret (Ok p, afterCreate d userId cardId p)
      else ret (Throw ForeignKeyViolation, d)
  end.

(** [updateMany({ where: { userId, cardId, solvedCount: { gt: 0 } },
    data: { solvedCount: { decrement: 1 } } })] *)
Definition decrementSolved (userId : Z) (cardId : string) (d : Db) : Timed Db :=
  match findUnique d userId cardId with
  | Some p =>
      if 0 <? p_solvedCount p then
        t <- newDate clock ;;
        ret (putProgress d userId cardId (withSolvedCount p (p_solvedCount p - 1) t))
      else ret d
  | None => ret d
  end.

(** [PATCH /cards/:cardId/progress] *)
Definition progressRoute (sessionUserId : option Z) (cardId : string)
    (action : option string) (d : Db) : Timed (Reply * Db) :=
  authorized d sessionUserId "Требуется авторизация для сохранения прогресса"
    (fun userId =>
       let isIncrement :=
         match action with Some a => String.eqb a "increment" | None => false end in
       let isDecrement :=
         match action with Some a => String.eqb a "decrement" | None => false end in
       if negb (isIncrement || isDecrement) then
         ret ({| status := 400;
                 body := Message "Invalid action. Must be 'increment' or 'decrement'" |}, d)
       else if negb (cardExists d cardId) then
         ret ({| status := 404; body := Message "Theory card not found" |}, d)
       else
         upserted <-
           (if isIncrement then
              upsertSolvedCount userId cardId 1 (Some (fun c => c + 1)) d
            else
              d1 <- decrementSolved userId cardId d ;;
              upsertSolvedCount userId cardId 0 None d1) ;;
         match upserted with
         | (Ok updatedProgress, d') =>
             ret ({| status := 200;
                     body := ProgressBody (p_userId updatedProgress)
                               (p_cardId updatedProgress)
                               (p_solvedCount updatedProgress) |}, d')
         | (Throw _, d') =>
             ret ({| status := 500; body := Message "Failed to update theory progress" |}, d')
         end).

End Routes.

(** ** Stored rows *)

(** [daysLate] as [reviewCard] derives it from the stored due date. *)
Definition daysLateAt (now : Z) (progress : UserTheoryProgress) : Z :=
  match p_dueDate progress with
  | Some due => Z.max 0 (floorDays now due)
  | None => 0
  end.

(** The row [reviewCard] writes over the stored row [progress] when its
    first clock reading is the [n]-th: [None] when the update is rejected. *)
Definition reviewedRow (clock : nat -> Z) (rating : Rating) (n : nat)
    (progress : UserTheoryProgress) : option UserTheoryProgress :=
  let reviewResult :=
    run (calculateReview clock DEFAULT_CONFIG (p_cardState progress)
           (p_interval progress) (p_easeFactor progress) (p_learningStep progress)
           rating (daysLateAt (clock n) progress)) (S n) in
  (fun newDue => reviewUpdate reviewResult newDue (clock n) progress)
    <$> newDueDate reviewResult.

(** Where a review starts: the stored row, the database and the number of
    clock readings so far, after the row was created if it was missing;
    [None] when the creation is refused. *)
Definition startOfReview (clock : nat -> Z) (userId : Z) (cardId : string)
    (d : Db) (n : nat) : option (UserTheoryProgress * Db * nat) :=
  match findUnique d userId cardId with
  | Some p => Some (p, d, n)
  | None =>
      if bool_decide (userId ∈ users d) && cardExists d cardId
      then
        let p := initialProgress (nextId d) userId cardId (clock n) in
        Some (p, afterCreate d userId cardId p, S n)
      else None
  end.

(** The response of a review that stored the row [p], with the preview
    [options]. *)
Definition responseOf (userId : Z) (cardId : string) (p : UserTheoryProgress)
    (options : NextReviewOptions) : ReviewResponse :=
  {| resp_userId := userId;
     resp_cardId := cardId;
     resp_newInterval := Some (p_interval p);
     resp_newDueDate := default 0 (p_dueDate p);
     resp_easeFactor := p_easeFactor p;
     resp_cardState := p_cardState p;
     resp_reviewCount := p_reviewCount p;
     resp_lapseCount := p_lapseCount p;
     resp_nextReviewIntervals := options |}.

(** The calculator's preview for a stored row that is not late. *)
Definition previewOf (clock : nat -> Z) (p : UserTheoryProgress) (n : nat)
    : NextReviewOptions :=
  run (getNextReviewOptions clock DEFAULT_CONFIG (p_cardState p) (p_interval p)
         (p_easeFactor p) (p_learningStep p) 0) n.

(** A learner answering one card several times in a row: one [reviewCard]
    per rating, until one fails. *)
Fixpoint reviewAll (clock : nat -> Z) (userId : Z) (cardId : string)
    (ratings : list Rating) (d : Db) : Timed (Outcome unit * Db) :=
  match ratings with
  | [] => ret (Ok tt, d)
  | rating :: rest =>
      reviewed <- reviewCard clock userId cardId rating None d ;;
      match reviewed with
      | (Ok _, d1) => reviewAll clock userId cardId rest d1
      | (Throw e, d1) => ret (Throw e, d1)
      end
  end.

(** The queue entry [getDueCards] builds for a card without progress. *)
Definition newCardEntry (card : TheoryCard) : DueCard :=
  {| dc_card := card;
     dc_dueDate := None;
     dc_cardState := NEW;
     dc_interval := 1;
     dc_easeFactor := 2.5;
     dc_reviewCount := 0;
     dc_lapseCount := 0;
     dc_isOverdue := false;
     dc_daysSinceLastReview := None;
     dc_priority := 0 |}.

(** Whether a state was asked for by the three flags of [getDueCards]. *)
Definition requested (includeNew includeLearning includeReview : bool)
    (cardState : CardState) : bool :=
  match cardState with
  | NEW => includeNew
  | LEARNING | RELEARNING => includeLearning
  | REVIEW => includeReview
  end.

(** "[a] comes before [b]" in a queue sorted by decreasing priority. *)
Definition priorityOrder (a b : DueCard) : Prop :=
  (dc_priority b <= dc_priority a)%Q.

(** The rows the engine itself produces: ease factor within the default
    bounds, a positive interval, a step that indexes the default learning
    steps and is 0 outside LEARNING and RELEARNING, and counters in order. *)
Definition wellFormedRow (p : UserTheoryProgress) : Prop :=
  (1.3 <= p_easeFactor p)%Q
  /\ (p_easeFactor p <= 2.5)%Q
  /\ 1 <= p_interval p
  /\ 0 <= p_learningStep p < 2
  /\ (isLearningState (p_cardState p) = false -> p_learningStep p = 0)
  /\ 0 <= p_lapseCount p <= p_reviewCount p
  /\ 0 <= p_solvedCount p.

(** ** Sample inputs *)

(** A clock that advances one second between two readings, starting on
    2023-11-14T22:13:20Z. *)
Definition tickingClock (n : nat) : Z := 1700000000000 + 1000 * Z.of_nat n.

(** A clock that stands still at the epoch. *)
Definition frozenClock (n : nat) : Z := 0.

(** [DEFAULT_CONFIG] with an empty list of learning steps. *)
Definition noStepsConfig : SpacedRepetitionConfig :=
  {| learningSteps := [];
     graduatingInterval := 1;
     easyInterval := 4;
     minEaseFactor := 1.3;
     maxEaseFactor := 2.5;
     initialEaseFactor := 2.5;
     lapseMultiplier := 0.1;
     hardMultiplier := 1.2;
     easyBonus := 1.3 |}.

(** A catalogue of one card, one user, and a REVIEW row of that user that
    fell due at [due]. *)
Definition sampleCard : TheoryCard :=
  {| card_id := "card-1";
     ankiGuid := "guid-1";
     cardType := "basic";
     deck := "JS";
     category := "JS";
     subCategory := None;
     questionBlock := "question";
     answerBlock := "answer";
     tags := [];
     orderIndex := 0;
     card_createdAt := 0;
     card_updatedAt := 0 |}.

Definition sampleReviewRow (due : Z) : UserTheoryProgress :=
  {| p_id := 0;
     p_userId := 7;
     p_cardId := "card-1";
     p_solvedCount := 3;
     p_createdAt := 0;
     p_updatedAt := 0;
     p_cardState := REVIEW;
     p_dueDate := Some due;
     p_easeFactor := 2.5;
     p_interval := 1;
     p_lapseCount := 0;
     p_lastReviewDate := Some (due - 86400000);
     p_learningStep := 0;
     p_reviewCount := 3 |}.

Definition sampleDb (due : Z) : Db :=
  {| users := {[ 7 ]};
     theoryCards := [sampleCard];
     progressEntries := {[ (7, "card-1"%string) := sampleReviewRow due ]};
     nextId := 1 |}.

(** The same catalogue and user before any review. *)
Definition freshDb : Db :=
  {| users := {[ 7 ]};
     theoryCards := [sampleCard];
     progressEntries := ∅;
     nextId := 0 |}.

(** A catalogue of two cards for the same user, before any review. *)
Definition secondCard : TheoryCard :=
  {| card_id := "card-2";
     ankiGuid := "guid-2";
     cardType := "basic";
     deck := "JS";
     category := "JS";
     subCategory := None;
     questionBlock := "question";
     answerBlock := "answer";
     tags := [];
     orderIndex := 1;
     card_createdAt := 0;
     card_updatedAt := 0 |}.

Definition twoCardsDb : Db :=
  {| users := {[ 7 ]};
     theoryCards := [sampleCard; secondCard];
     progressEntries := ∅;
     nextId := 0 |}.

(** Roles and error messages for the samples: every stored user is a
    USER, and the client's messages do not say "not found". *)
Definition sampleRoleOf (userId : Z) : UserRole := USER.

Definition sampleMessageOf (e : PrismaError) : string :=
  match e with
  | ForeignKeyViolation => "Foreign key constraint failed"
  | InvalidDateValue => "Provided Date object is invalid"
  end.

(** One hour before the first reading of [tickingClock]. *)
Definition anHourAgo : Z := 1700000000000 - 3600000.

(** ** Scenarios of the calculator under [DEFAULT_CONFIG] *)

Example new_again_scenario :
  run (calculateReview tickingClock DEFAULT_CONFIG NEW 1 2.5 0 again 0) 0%nat
  = {| newInterval := Some 1;
       newDueDate := Some (1700000000000 + 60000);
       newEaseFactor := 2.5;
       newCardState := LEARNING;
       newLearningStep := 0;
       lapseCountIncrement := 0 |}.
Proof. reflexivity. Qed.

Example new_easy_scenario :
  run (calculateReview tickingClock DEFAULT_CONFIG NEW 1 2.5 0 easy 0) 0%nat
  = {| newInterval := Some 4;
       newDueDate := Some (1700000000000 + 4 * 86400000);
       newEaseFactor := 2.5;
       newCardState := REVIEW;
       newLearningStep := 0;
       lapseCountIncrement := 0 |}.
Proof. reflexivity. Qed.

Example learning_good_step0_scenario :
  let r := run (calculateReview tickingClock DEFAULT_CONFIG LEARNING 1 2.5 0 good 0) 0%nat in
  newCardState r = LEARNING /\ newLearningStep r = 1 /\ newInterval r = Some 10.
Proof. repeat split. Qed.

Example learning_good_last_step_scenario :
  let r := run (calculateReview tickingClock DEFAULT_CONFIG LEARNING 10 2.5 1 good 0) 0%nat in
  newCardState r = REVIEW /\ newLearningStep r = 0 /\ newInterval r = Some 1.
Proof. repeat split. Qed.

Example review_good_scenario :
  let r := run (calculateReview tickingClock DEFAULT_CONFIG REVIEW 10 2.5 0 good 0) 0%nat in
  newCardState r = REVIEW /\ newInterval r = Some 25.
Proof. repeat split. Qed.

Example review_again_scenario :
  let r := run (calculateReview tickingClock DEFAULT_CONFIG REVIEW 10 2.5 0 again 0) 0%nat in
  newCardState r = RELEARNING /\ (newEaseFactor r == 2.3)%Q
  /\ newInterval r = Some 1 /\ lapseCountIncrement r = 1.
Proof. repeat split. Qed.

(** ** Properties of the calculator *)

(** Unfolds a call of the calculator down to its record of results. *)
Ltac unfold_review :=
  unfold run, calculateReview, handleNewCard, handleLearningCard,
    handleReviewCard, handleRelearningCard, bind, ret, newDate; simpl.

(** Splits on the test [nextStep >= learningSteps.length] of the [good]
    branches, where the goal has it. *)
Ltac split_graduation :=
  try match goal with
      | |- context [js_length ?l <=? ?s] => destruct (js_length l <=? s) eqn:?; simpl
      end.

(** Every call of [calculateReview] reads the clock exactly once. *)
Lemma calculateReview_ticks clock config state interval ease step rating daysLate n :
  snd (calculateReview clock config state interval ease step rating daysLate n) = S n.
Proof.
  destruct state, rating; unfold_review; try reflexivity;
    destruct (js_length (learningSteps config) <=? step + 1); reflexivity.
Qed.

(** Relative to the reading it obtained, the outcome does not depend on the
    clock. *)
Lemma calculateReview_sinceReading clock clock' config state interval ease step
    rating daysLate n n' :
  sinceReading (clock n)
    (run (calculateReview clock config state interval ease step rating daysLate) n)
  = sinceReading (clock' n')
      (run (calculateReview clock' config state interval ease step rating daysLate) n').
Proof.
  assert (Hmin : forall (now now' : Z) (o : option Z),
             (fun due => due - now) <$> (addMinutes now <$> o)
             = (fun due => due - now') <$> (addMinutes now' <$> o)).
  { intros now now' [v|]; simpl; [|reflexivity].
    unfold addMinutes. f_equal. lia. }
  assert (Hday : forall (now now' v : Z),
             addDays now v - now = addDays now' v - now').
  { intros. unfold addDays. lia. }
  destruct state, rating; unfold_review; unfold sinceReading; simpl;
    try (destruct (js_length (learningSteps config) <=? step + 1); simpl);
    rewrite ?(Hmin (clock n) (clock' n')), ?(Hday (clock n) (clock' n'));
    reflexivity.
Qed.

Lemma newInterval_clock_free clock clock' config state interval ease step
    rating daysLate n n' :
  newInterval (run (calculateReview clock config state interval ease step rating daysLate) n)
  = newInterval
      (run (calculateReview clock' config state interval ease step rating daysLate) n').
Proof.
  apply (f_equal newInterval
           (calculateReview_sinceReading clock clock' config state interval ease
              step rating daysLate n n')).
Qed.

(** C1. Rating [again] on a REVIEW card, whatever its interval, ease factor
    and lateness: the card goes to RELEARNING at learning step 0, its ease
    factor drops by 0.2 but not below [minEaseFactor], the lapse increment is
    1, and the returned interval and due date are those of the first
    learning step, [learningSteps[0]] minutes after the clock reading; the
    interval decayed by [lapseMultiplier] does not appear in the outcome.
    For every state and rating the lapse increment is 1 for (REVIEW, again)
    and 0 otherwise. *)
Theorem review_again_is_a_lapse :
  forall (clock : nat -> Z) (config : SpacedRepetitionConfig)
         (interval : Z) (ease : Q) (step daysLate : Z) (n : nat),
    let r := run (calculateReview clock config REVIEW interval ease step again daysLate) n in
    newCardState r = RELEARNING
    /\ newEaseFactor r = Qmax (minEaseFactor config) (ease - 0.2)
    /\ ((minEaseFactor config <= ease - 0.2 /\ newEaseFactor r == ease - 0.2)
        \/ (ease - 0.2 <= minEaseFactor config /\ newEaseFactor r == minEaseFactor config))%Q
    /\ newLearningStep r = 0
    /\ lapseCountIncrement r = 1
    /\ newInterval r = js_index (learningSteps config) 0
    /\ newDueDate r = addMinutes (clock n) <$> js_index (learningSteps config) 0
    /\ (forall (state : CardState) (rating : Rating) (interval' : Z) (ease' : Q)
               (step' daysLate' : Z) (m : nat),
          lapseCountIncrement
            (run (calculateReview clock config state interval' ease' step' rating daysLate') m)
          = match state, rating with
            | REVIEW, again => 1
            | _, _ => 0
            end).
Proof.
  intros clock config interval ease step daysLate n r.
  subst r. unfold_review.
  repeat split.
  - destruct (Q.max_spec_le (minEaseFactor config) (ease - 0.2)) as [[Hle Heq]|[Hle Heq]].
    + left. split; assumption.
    + right. split; assumption.
  - intros state rating interval' ease' step' daysLate' m.
    destruct state, rating; unfold_review; try reflexivity;
      destruct (js_length (learningSteps config) <=? step' + 1); reflexivity.
Qed.

(** C2, as amended. In LEARNING the outcome's ease factor is the
    configuration's [initialEaseFactor], for every input ease factor, step,
    rating and lateness: the handler of LEARNING cards does not receive the
    card's ease factor. *)
Theorem learning_ease_is_initial :
  forall (clock : nat -> Z) (config : SpacedRepetitionConfig)
         (interval : Z) (ease : Q) (step : Z) (rating : Rating) (daysLate : Z) (n : nat),
    newEaseFactor
      (run (calculateReview clock config LEARNING interval ease step rating daysLate) n)
    = initialEaseFactor config.
Proof.
  intros. destruct rating; unfold_review; try reflexivity.
  destruct (js_length (learningSteps config) <=? step + 1); reflexivity.
Qed.

(** C2, the claim as stated fails: a LEARNING card whose ease factor is 2.0
    comes out of a [good] review with ease factor 2.5. *)
Lemma learning_ease_not_preserved :
  (newEaseFactor
     (run (calculateReview frozenClock DEFAULT_CONFIG LEARNING 1 2.0 0 good 0) 0%nat)
   == 2.5)%Q
  /\ ~ (newEaseFactor
          (run (calculateReview frozenClock DEFAULT_CONFIG LEARNING 1 2.0 0 good 0) 0%nat)
        == 2.0)%Q.
Proof.
  split.
  - reflexivity.
  - intro H. vm_compute in H. discriminate H.
Qed.

(** C3, as amended. The outcome is a function of the arguments, the
    configuration and the one clock reading the handler makes: relative to
    that reading (due date taken as an offset from it) two invocations on the
    same arguments agree, under any two clocks and at any two moments; every
    field but [newDueDate] is the same outright. *)
Theorem calculateReview_deterministic_up_to_clock :
  forall (clock clock' : nat -> Z) (config : SpacedRepetitionConfig)
         (state : CardState) (interval : Z) (ease : Q) (step : Z)
         (rating : Rating) (daysLate : Z) (n n' : nat),
    let r := run (calculateReview clock config state interval ease step rating daysLate) n in
    let r' := run (calculateReview clock' config state interval ease step rating daysLate) n' in
    sinceReading (clock n) r = sinceReading (clock' n') r'
    /\ newInterval r = newInterval r'
    /\ newEaseFactor r = newEaseFactor r'
    /\ newCardState r = newCardState r'
    /\ newLearningStep r = newLearningStep r'
    /\ lapseCountIncrement r = lapseCountIncrement r'.
Proof.
  intros clock clock' config state interval ease step rating daysLate n n' r r'.
  pose proof (calculateReview_sinceReading clock clock' config state interval ease
                step rating daysLate n n') as H.
  fold r r' in H.
  split; [exact H|].
  split; [exact (f_equal newInterval H)|].
  split; [exact (f_equal newEaseFactor H)|].
  split; [exact (f_equal newCardState H)|].
  split; [exact (f_equal newLearningStep H)|].
  exact (f_equal lapseCountIncrement H).
Qed.

(** C3, the claim as stated fails: two successive invocations on the same
    arguments, one second apart, return different due dates. *)
Lemma calculateReview_reads_the_clock :
  newDueDate (run (calculateReview tickingClock DEFAULT_CONFIG NEW 1 2.5 0 again 0) 0%nat)
  = Some 1700000060000
  /\ newDueDate (run (calculateReview tickingClock DEFAULT_CONFIG NEW 1 2.5 0 again 0) 1%nat)
     = Some 1700000061000
  /\ run (calculateReview tickingClock DEFAULT_CONFIG NEW 1 2.5 0 again 0) 0%nat
     <> run (calculateReview tickingClock DEFAULT_CONFIG NEW 1 2.5 0 again 0) 1%nat.
Proof.
  split; [reflexivity|]. split; [reflexivity|].
  intro H. apply (f_equal newDueDate) in H. vm_compute in H. discriminate H.
Qed.

(** *** Array reads *)

Lemma js_index_in_range (a : list Z) (i : Z) :
  0 <= i -> i < js_length a -> exists v, js_index a i = Some v.
Proof.
  intros Hlo Hhi. unfold js_index, js_length in *.
  destruct (Z.ltb_spec i 0) as [Hneg|_]; [lia|].
  apply lookup_lt_is_Some_2. lia.
Qed.

Lemma js_index_Forall (P : Z -> Prop) (a : list Z) (i v : Z) :
  Forall P a -> js_index a i = Some v -> P v.
Proof.
  intros Hall. unfold js_index.
  destruct (i <? 0); [discriminate|].
  intros Hlook. exact (Forall_lookup_1 P a (Z.to_nat i) v Hall Hlook).
Qed.

Lemma js_index_first (a : list Z) :
  a <> [] -> exists v, js_index a 0 = Some v.
Proof.
  destruct a as [|v a']; [congruence|]. intros _. exists v. reflexivity.
Qed.

(** [a[i] || a[0]] is a member of [a] as soon as [a] is not empty and holds
    no zero. *)
Lemma js_or_index_positive (a : list Z) (i : Z) :
  a <> [] -> Forall (fun s => 1 <= s) a ->
  exists v, js_or (js_index a i) (js_index a 0) = Some v /\ 1 <= v.
Proof.
  intros Hne Hall.
  destruct (js_index_first a Hne) as [v0 Hv0].
  pose proof (js_index_Forall _ a 0 v0 Hall Hv0) as Hv0pos.
  destruct (js_index a i) as [v|] eqn:Hi; simpl.
  - pose proof (js_index_Forall _ a i v Hall Hi) as Hvpos. simpl in Hvpos.
    destruct (Z.eqb_spec v 0) as [Hz|_]; [lia|].
    exists v. split; [reflexivity|exact Hvpos].
  - exists v0. split; assumption.
Qed.

(** C6, as amended. With a non-empty list of learning steps, all of them at
    least 1, and graduating and easy intervals at least 1, every outcome of
    [calculateReview] on an interval at least 1 and a learning step at least
    0 carries a defined interval that is at least 1. *)
Theorem interval_at_least_one :
  forall (clock : nat -> Z) (config : SpacedRepetitionConfig)
         (state : CardState) (interval : Z) (ease : Q) (step : Z)
         (rating : Rating) (daysLate : Z) (n : nat),
    learningSteps config <> [] ->
    Forall (fun s => 1 <= s) (learningSteps config) ->
    1 <= graduatingInterval config ->
    1 <= easyInterval config ->
    1 <= interval ->
    0 <= step ->
    exists v,
      newInterval
        (run (calculateReview clock config state interval ease step rating daysLate) n)
      = Some v
      /\ 1 <= v.
Proof.
  intros clock config state interval ease step rating daysLate n
         Hne Hall Hgrad Heasy Hint Hstep.
  assert (Hfirst : exists v, js_index (learningSteps config) 0 = Some v /\ 1 <= v).
  { destruct (js_index_first _ Hne) as [v Hv]. exists v. split; [exact Hv|].
    exact (js_index_Forall _ _ 0 v Hall Hv). }
  assert (Hor : forall i, exists v,
             js_or (js_index (learningSteps config) i)
                   (js_index (learningSteps config) 0) = Some v /\ 1 <= v).
  { intro i. apply js_or_index_positive; assumption. }
  assert (Hnext : (js_length (learningSteps config) <=? step + 1) = false ->
                  exists v, js_index (learningSteps config) (step + 1) = Some v /\ 1 <= v).
  { intro Hlt. apply Z.leb_gt in Hlt.
    destruct (js_index_in_range (learningSteps config) (step + 1)) as [v Hv]; [lia|lia|].
    exists v. split; [exact Hv|].
    exact (js_index_Forall _ _ (step + 1) v Hall Hv). }
  assert (Hmax : forall z, exists v, Some (Z.max 1 z) = Some v /\ 1 <= v).
  { intro z. exists (Z.max 1 z). split; [reflexivity|lia]. }
  destruct state, rating; unfold_review;
    try exact Hfirst; try apply Hor; try apply Hmax;
    try (eexists; split; [reflexivity|assumption]);
    destruct (js_length (learningSteps config) <=? step + 1) eqn:Hlen; simpl;
    try apply Hmax; try (apply Hnext; reflexivity);
    eexists; split; [reflexivity|assumption].
Qed.

Lemma interval_at_least_one_witness :
  exists v,
    newInterval (run (calculateReview tickingClock DEFAULT_CONFIG REVIEW 10 2.5 0 good 3) 0%nat)
    = Some v
    /\ 1 <= v.
Proof.
  apply (interval_at_least_one tickingClock DEFAULT_CONFIG REVIEW 10 2.5 0 good 3 0%nat).
  - simpl. discriminate.
  - simpl. repeat constructor; lia.
  - simpl. lia.
  - simpl. lia.
  - lia.
  - lia.
Defined.

(** C6, the claim as stated fails: with an empty list of learning steps all
    the stated assumptions hold (no step is below 1), yet rating a NEW card
    [again] yields an undefined interval. *)
Lemma interval_undefined_without_steps :
  Forall (fun s => 1 <= s) (learningSteps noStepsConfig)
  /\ 1 <= graduatingInterval noStepsConfig
  /\ 1 <= easyInterval noStepsConfig
  /\ newInterval (run (calculateReview frozenClock noStepsConfig NEW 1 2.5 0 again 0) 0%nat)
     = None
  /\ ~ (exists v,
          newInterval (run (calculateReview frozenClock noStepsConfig NEW 1 2.5 0 again 0) 0%nat)
          = Some v
          /\ 1 <= v).
Proof.
  split; [constructor|].
  split; [simpl; lia|].
  split; [simpl; lia|].
  split; [reflexivity|].
  intros [v [Hv _]]. discriminate Hv.
Qed.

(** C5. When the configuration has
    [minEaseFactor <= initialEaseFactor <= maxEaseFactor] and the input ease
    factor lies in [[minEaseFactor, maxEaseFactor]], so does the ease factor
    of the outcome, for every state and rating. *)
Theorem ease_factor_stays_in_bounds :
  forall (clock : nat -> Z) (config : SpacedRepetitionConfig)
         (state : CardState) (interval : Z) (ease : Q) (step : Z)
         (rating : Rating) (daysLate : Z) (n : nat),
    (minEaseFactor config <= initialEaseFactor config)%Q ->
    (initialEaseFactor config <= maxEaseFactor config)%Q ->
    (minEaseFactor config <= ease)%Q ->
    (ease <= maxEaseFactor config)%Q ->
    let r := run (calculateReview clock config state interval ease step rating daysLate) n in
    (minEaseFactor config <= newEaseFactor r)%Q
    /\ (newEaseFactor r <= maxEaseFactor config)%Q.
Proof.
  intros clock config state interval ease step rating daysLate n Hmi Him Hlo Hhi r.
  subst r.
  assert (Hmm : (minEaseFactor config <= maxEaseFactor config)%Q) by lra.
  destruct state, rating; unfold_review; split_graduation;
    try (split; assumption).
  - (* REVIEW, again *)
    split; [apply Q.le_max_l|]. apply Q.max_lub; lra.
  - (* REVIEW, hard *)
    split; [apply Q.le_max_l|]. apply Q.max_lub; lra.
  - (* REVIEW, easy *)
    split; [|apply Q.le_min_l]. apply Q.min_glb; lra.
Qed.

Lemma ease_factor_stays_in_bounds_witness :
  (minEaseFactor DEFAULT_CONFIG
   <= newEaseFactor
        (run (calculateReview tickingClock DEFAULT_CONFIG REVIEW 10 2.4 0 easy 0) 0%nat))%Q
  /\ (newEaseFactor
        (run (calculateReview tickingClock DEFAULT_CONFIG REVIEW 10 2.4 0 easy 0) 0%nat)
      <= maxEaseFactor DEFAULT_CONFIG)%Q.
Proof.
  apply (ease_factor_stays_in_bounds tickingClock DEFAULT_CONFIG REVIEW 10 2.4 0 easy 0 0%nat);
    simpl; lra.
Defined.

(** C7. For every snapshot and lateness and each of the four ratings, the
    entry of [getNextReviewOptions] for that rating is the [newInterval] of
    [calculateReview] called with that rating on the same snapshot, whenever
    the two are run; the value is passed through unconverted. *)
Theorem next_review_options_agree_with_review :
  forall (clock : nat -> Z) (config : SpacedRepetitionConfig)
         (state : CardState) (interval : Z) (ease : Q) (step daysLate : Z)
         (rating : Rating) (n m : nat),
    optionFor rating
      (run (getNextReviewOptions clock config state interval ease step daysLate) n)
    = newInterval
        (run (calculateReview clock config state interval ease step rating daysLate) m).
Proof.
  intros clock config state interval ease step daysLate rating n m.
  unfold run at 1. unfold getNextReviewOptions, bind, ret.
  destruct (calculateReview clock config state interval ease step again daysLate n)
    as [r_again n1] eqn:Ha.
  destruct (calculateReview clock config state interval ease step hard daysLate n1)
    as [r_hard n2] eqn:Hh.
  destruct (calculateReview clock config state interval ease step good daysLate n2)
    as [r_good n3] eqn:Hg.
  destruct (calculateReview clock config state interval ease step easy daysLate n3)
    as [r_easy n4] eqn:He.
  assert (Hpick : forall r : ReviewResult,
             (if isMinuteInterval (newInterval r) (newCardState r)
              then newInterval r else daysToDays (newInterval r)) = newInterval r).
  { intro r. unfold daysToDays. destruct (isMinuteInterval _ _); reflexivity. }
  destruct rating; simpl; rewrite Hpick.
  - change r_again with (fst (r_again, n1)). rewrite <- Ha. apply newInterval_clock_free.
  - change r_hard with (fst (r_hard, n2)). rewrite <- Hh. apply newInterval_clock_free.
  - change r_good with (fst (r_good, n3)). rewrite <- Hg. apply newInterval_clock_free.
  - change r_easy with (fst (r_easy, n4)). rewrite <- He. apply newInterval_clock_free.
Qed.

(** *** Priority *)

Lemma floorDays_div (a b : Z) : floorDays a b = (a - b) / 86400000.
Proof.
  unfold floorDays. symmetry. apply Zdiv_Qdiv.
Qed.

Lemma floorDays_mono (a b a' b' : Z) :
  a - b <= a' - b' -> floorDays a b <= floorDays a' b'.
Proof.
  intro H. rewrite !floorDays_div. apply Z.div_le_mono; lia.
Qed.

Lemma daysOverdue_mono (a b a' b' : Z) :
  a - b <= a' - b' -> daysOverdue a b <= daysOverdue a' b'.
Proof.
  intro H. unfold daysOverdue. pose proof (floorDays_mono a b a' b' H). lia.
Qed.

(** C8. With a due date, the score is
    [daysOverdue * 10 + (maxEaseFactor - easeFactor) * 5 + lapseCount * 2],
    plus 100 in LEARNING and RELEARNING, where [daysOverdue] is the number of
    whole days from the due date to the clock reading, or 0 when negative;
    without a due date the score is 0. *)
Theorem priority_formula :
  forall (clock : nat -> Z) (config : SpacedRepetitionConfig)
         (dueDate : Z) (easeFactor : Q) (lapseCount : Z) (state : CardState) (n : nat),
    (run (calculatePriority clock config (Some dueDate) easeFactor lapseCount state) n
     == inject_Z (Z.max 0 ((clock n - dueDate) / 86400000)) * 10
        + (maxEaseFactor config - easeFactor) * 5
        + inject_Z lapseCount * 2
        + match state with
          | LEARNING | RELEARNING => 100
          | NEW | REVIEW => 0
          end)%Q
    /\ run (calculatePriority clock config None easeFactor lapseCount state) n = 0%Q.
Proof.
  intros clock config dueDate easeFactor lapseCount state n.
  split; [|reflexivity].
  unfold run, calculatePriority, bind, ret, newDate, daysOverdue. simpl.
  rewrite floorDays_div.
  destruct state; simpl; lra.
Qed.

(** C9. The score does not decrease when the days overdue grow, when the
    lapse count grows, or when [maxEaseFactor - easeFactor] grows, the state
    being the same; the days overdue themselves do not decrease as the
    clock moves away from the due date.  Without a due date the score is
    constant. *)
Theorem priority_monotone :
  forall (clock clock' : nat -> Z) (config config' : SpacedRepetitionConfig)
         (dueDate dueDate' : Z) (easeFactor easeFactor' : Q)
         (lapseCount lapseCount' : Z) (state : CardState) (n n' : nat),
    daysOverdue (clock n) dueDate <= daysOverdue (clock' n') dueDate' ->
    lapseCount <= lapseCount' ->
    (maxEaseFactor config - easeFactor <= maxEaseFactor config' - easeFactor')%Q ->
    (run (calculatePriority clock config (Some dueDate) easeFactor lapseCount state) n
     <= run (calculatePriority clock' config' (Some dueDate') easeFactor' lapseCount' state) n')%Q
    /\ (run (calculatePriority clock config None easeFactor lapseCount state) n
        <= run (calculatePriority clock' config' None easeFactor' lapseCount' state) n')%Q
    /\ (clock n - dueDate <= clock' n' - dueDate' ->
        daysOverdue (clock n) dueDate <= daysOverdue (clock' n') dueDate').
Proof.
  intros clock clock' config config' dueDate dueDate' easeFactor easeFactor'
         lapseCount lapseCount' state n n' Hdays Hlapse Hease.
  split; [|split].
  - unfold run, calculatePriority, bind, ret, newDate. simpl.
    assert (Hd : (inject_Z (daysOverdue (clock n) dueDate)
                  <= inject_Z (daysOverdue (clock' n') dueDate'))%Q)
      by (rewrite <- Zle_Qle; exact Hdays).
    assert (Hl : (inject_Z lapseCount <= inject_Z lapseCount')%Q)
      by (rewrite <- Zle_Qle; exact Hlapse).
    destruct state; simpl; lra.
  - unfold run, calculatePriority, ret. simpl. lra.
  - apply daysOverdue_mono.
Qed.

Lemma priority_monotone_witness :
  (run (calculatePriority frozenClock DEFAULT_CONFIG (Some (-86400000)%Z) 2.5 0 REVIEW) 0%nat
   <= run (calculatePriority tickingClock DEFAULT_CONFIG (Some 0%Z) 1.3 4 REVIEW) 0%nat)%Q.
Proof.
  refine (proj1 (priority_monotone frozenClock tickingClock DEFAULT_CONFIG DEFAULT_CONFIG
                   (-86400000) 0 2.5 1.3 0 4 REVIEW 0%nat 0%nat _ _ _)).
  - vm_compute. discriminate.
  - lia.
  - simpl. lra.
Defined.

(** ** Properties of the due-card selection *)

Lemma floorDays_negative (now due : Z) :
  (floorDays now due <? 0) = (now <? due).
Proof.
  rewrite floorDays_div.
  destruct (Z.ltb_spec now due) as [Hlt|Hge].
  - apply Z.ltb_lt. apply Z.div_lt_upper_bound; lia.
  - apply Z.ltb_ge. apply Z.div_pos; lia.
Qed.

(** On a REVIEW row with a due date the time check of the loop is
    [now < dueDate]. *)
Lemma notYetDue_review (now due : Z) (progress : UserTheoryProgress) :
  p_cardState progress = REVIEW ->
  p_dueDate progress = Some due ->
  notYetDue now progress = (now <? due).
Proof.
  intros Hstate Hdue. unfold notYetDue. rewrite Hdue, Hstate. simpl.
  apply floorDays_negative.
Qed.

Lemma In_insertByPriority (x y : DueCard) (l : list DueCard) :
  In x (insertByPriority y l) <-> x = y \/ In x l.
Proof.
  induction l as [|z l IH]; simpl.
  - intuition congruence.
  - destruct (Qlt_le_dec (dc_priority y) (dc_priority z)); simpl.
    + rewrite IH. intuition congruence.
    + intuition congruence.
Qed.

Lemma In_sortByPriority (x : DueCard) (l : list DueCard) :
  In x (sortByPriority l) <-> In x l.
Proof.
  unfold sortByPriority. induction l as [|y l IH]; simpl.
  - reflexivity.
  - rewrite In_insertByPriority, IH. intuition congruence.
Qed.

Lemma In_take {A : Type} (x : A) (k : nat) (l : list A) :
  In x (take k l) -> In x l.
Proof.
  revert l. induction k as [|k IH]; intros [|y l]; simpl; try tauto.
  intros [Heq|Hin]; [left; exact Heq|right; apply IH; exact Hin].
Qed.

(** What the loop pushes comes from one iteration on one fetched card. *)
Lemma In_processCards clock now includeNew stateFilter cardsData :
  forall (processedCards : list DueCard) (n : nat) (dueCard : DueCard),
    In dueCard (fst (processCards clock now includeNew stateFilter cardsData processedCards n)) ->
    In dueCard processedCards
    \/ exists card entries m,
         In (card, entries) cardsData
         /\ fst (processCard clock now includeNew stateFilter card entries m) = Some dueCard.
Proof.
  induction cardsData as [|[card entries] rest IH]; intros processedCards n dueCard Hin.
  - left. exact Hin.
  - simpl in Hin. unfold bind in Hin.
    destruct (processCard clock now includeNew stateFilter card entries n)
      as [pushed n1] eqn:Hstep.
    destruct (IH _ _ _ Hin) as [Hacc|[card' [entries' [m [Hmem Hres]]]]].
    + destruct pushed as [pushedCard|].
      * apply in_app_or in Hacc. destruct Hacc as [Hold|[Hnew|[]]].
        -- left. exact Hold.
        -- right. exists card, entries, n. split; [left; reflexivity|].
           rewrite Hstep. simpl. congruence.
      * left. exact Hacc.
    + right. exists card', entries', m. split; [right; exact Hmem|exact Hres].
Qed.

(** A pushed REVIEW entry with a due date passed the time check. *)
Lemma processCard_review_due clock now includeNew stateFilter card entries m dueCard due :
  fst (processCard clock now includeNew stateFilter card entries m) = Some dueCard ->
  dc_cardState dueCard = REVIEW ->
  dc_dueDate dueCard = Some due ->
  due <= now.
Proof.
  unfold processCard. destruct (head entries) as [progress|].
  - destruct (negb (includes stateFilter (p_cardState progress))); [discriminate|].
    destruct (notYetDue now progress) eqn:Hgate; [discriminate|].
    unfold bind, ret. 
    destruct (calculatePriority clock DEFAULT_CONFIG (p_dueDate progress)
                (p_easeFactor progress) (p_lapseCount progress) (p_cardState progress) m)
      as [priority m1].
    simpl. intros Hpush Hstate Hdue. injection Hpush as <-. simpl in Hstate, Hdue.
    rewrite (notYetDue_review now due progress Hstate Hdue) in Hgate.
    apply Z.ltb_ge in Hgate. exact Hgate.
  - destruct includeNew; [|discriminate].
    unfold bind, ret. simpl. intros Hpush Hstate. injection Hpush as <-.
    discriminate Hstate.
Qed.

(** C4, as amended. A candidate whose row is in state REVIEW with a due
    date is skipped exactly when REVIEW is not among the requested states or
    the due date is still ahead ([now < dueDate]); so every REVIEW entry of
    the returned queue that has a due date fell due at or before the moment
    the selection started, however little time has passed since. *)
Theorem review_card_skipped_iff_not_due :
  (forall (clock : nat -> Z) (now : Z) (includeNew : bool)
          (stateFilter : list CardState) (card : TheoryCard)
          (progress : UserTheoryProgress) (others : list UserTheoryProgress)
          (due : Z) (m : nat),
      p_cardState progress = REVIEW ->
      p_dueDate progress = Some due ->
      (fst (processCard clock now includeNew stateFilter card (progress :: others) m) = None
       <-> includes stateFilter REVIEW = false \/ now < due))
  /\ (forall (clock : nat -> Z) (userId : Z) (limit : nat)
             (includeNew includeLearning includeReview : bool) (d : Db) (n : nat)
             (dueCard : DueCard) (due : Z),
         In dueCard
            (run (getDueCards clock userId limit includeNew includeLearning includeReview d) n) ->
         dc_cardState dueCard = REVIEW ->
         dc_dueDate dueCard = Some due ->
         due <= clock n).
Proof.
  split.
  - intros clock now includeNew stateFilter card progress others due m Hstate Hdue.
    unfold processCard. simpl. rewrite Hstate.
    destruct (includes stateFilter REVIEW) eqn:Hinc; simpl.
    + rewrite (notYetDue_review now due progress Hstate Hdue).
      destruct (Z.ltb_spec now due) as [Hlt|Hge].
      * split; [intros _; right; exact Hlt|reflexivity].
      * unfold bind, ret.
        destruct (calculatePriority clock DEFAULT_CONFIG (p_dueDate progress)
                    (p_easeFactor progress) (p_lapseCount progress) REVIEW m)
          as [priority m1].
        simpl. split; [discriminate|]. intros [Hf|Hlt]; [discriminate|lia].
    + split; [intros _; left|]; reflexivity.
  - intros clock userId limit includeNew includeLearning includeReview d n dueCard due
           Hin Hstate Hdue.
    unfold run, getDueCards, bind, ret, newDate in Hin.
    match type of Hin with
    | context [processCards ?c ?now ?iN ?sf ?cd ?acc ?k] =>
        destruct (processCards c now iN sf cd acc k) as [processedCards k1] eqn:Hloop
    end.
    simpl in Hin. apply In_take in Hin. apply (proj1 (In_sortByPriority _ _)) in Hin.
    change processedCards with (fst (processedCards, k1)) in Hin.
    rewrite <- Hloop in Hin.
    destruct (In_processCards _ _ _ _ _ _ _ _ Hin) as [[]|[card [entries [m [_ Hpush]]]]].
    exact (processCard_review_due _ _ _ _ _ _ _ _ _ Hpush Hstate Hdue).
Qed.

Lemma review_card_skipped_iff_not_due_witness :
  (fst (processCard tickingClock (tickingClock 0) true [NEW; REVIEW] sampleCard
          [sampleReviewRow (tickingClock 0 + 1)] 1%nat) = None)
  /\ anHourAgo <= tickingClock 0.
Proof.
  split.
  - apply (proj1 review_card_skipped_iff_not_due tickingClock (tickingClock 0) true
             [NEW; REVIEW] sampleCard (sampleReviewRow (tickingClock 0 + 1)) []
             (tickingClock 0 + 1) 1%nat).
    + reflexivity.
    + reflexivity.
    + right. lia.
  - apply (proj2 review_card_skipped_iff_not_due tickingClock 7 20%nat true true true
             (sampleDb anHourAgo) 0%nat
             (nth 0 (run (getDueCards tickingClock 7 20 true true true
                            (sampleDb anHourAgo)) 0%nat)
                  {| dc_card := sampleCard; dc_dueDate := None; dc_cardState := NEW;
                     dc_interval := 1; dc_easeFactor := 2.5; dc_reviewCount := 0;
                     dc_lapseCount := 0; dc_isOverdue := false;
                     dc_daysSinceLastReview := None; dc_priority := 0 |})
             anHourAgo).
    + vm_compute. left. reflexivity.
    + vm_compute. reflexivity.
    + vm_compute. reflexivity.
Defined.

(** C4, the claim as stated fails: a REVIEW card that fell due one hour
    ago, so less than a full day ago, is in the queue. *)
Lemma partly_overdue_review_card_is_selected :
  p_cardState (sampleReviewRow anHourAgo) = REVIEW
  /\ p_dueDate (sampleReviewRow anHourAgo) = Some anHourAgo
  /\ 0 < tickingClock 0 - anHourAgo < MS_PER_DAY
  /\ map (fun dueCard => (card_id (dc_card dueCard), dc_cardState dueCard, dc_dueDate dueCard))
         (run (getDueCards tickingClock 7 20 true true true (sampleDb anHourAgo)) 0%nat)
     = [("card-1"%string, REVIEW, Some anHourAgo)].
Proof.
  split; [reflexivity|]. split; [reflexivity|].
  split; [vm_compute; split; reflexivity|].
  vm_compute. reflexivity.
Qed.

(** ** Properties of the review orchestrator *)

(** C10. A [reviewCard] that succeeds leaves under [(userId, cardId)] a row
    whose [solvedCount] and [reviewCount] are one more than those of the row
    the review started from (the stored row, or the NEW-state row created for
    a first review, whose counts are 0); the row keeps its [id], [userId],
    [cardId] and [createdAt], the rows under the other keys are the same, and
    so are the users and the catalogue.  A [resetCard] that succeeds leaves a
    row whose [solvedCount] is 0. *)
Theorem review_increments_solved_count :
  (forall (clock : nat -> Z) (userId : Z) (cardId : string) (rating : Rating)
          (responseTime : option Z) (d : Db) (n : nat),
      isOk (fst (run (reviewCard clock userId cardId rating responseTime d) n)) = true ->
      let d' := snd (run (reviewCard clock userId cardId rating responseTime d) n) in
      let before := rowBeforeReview clock userId cardId d n in
      exists after : UserTheoryProgress,
        progressEntries d' !! (userId, cardId) = Some after
        /\ p_solvedCount after = p_solvedCount before + 1
        /\ p_reviewCount after = p_reviewCount before + 1
        /\ p_id after = p_id before
        /\ p_userId after = p_userId before
        /\ p_cardId after = p_cardId before
        /\ p_createdAt after = p_createdAt before
        /\ (forall key : Z * string,
              key <> (userId, cardId) ->
              progressEntries d' !! key = progressEntries d !! key)
        /\ users d' = users d
        /\ theoryCards d' = theoryCards d)
  /\ (forall (clock : nat -> Z) (userId : Z) (cardId : string) (d : Db) (n : nat),
         isOk (fst (run (resetCard clock userId cardId d) n)) = true ->
         exists after : UserTheoryProgress,
           progressEntries (snd (run (resetCard clock userId cardId d) n)) !! (userId, cardId)
           = Some after
           /\ p_solvedCount after = 0).
Proof.
  split.
  - intros clock userId cardId rating responseTime d n Hok d' before.
    subst d' before. revert Hok.
    remember (run (reviewCard clock userId cardId rating responseTime d) n) as res eqn:Hres.
    unfold run, reviewCard, rowBeforeReview, bind in *.
    destruct (findUnique d userId cardId) as [p|] eqn:Hfind.
    + unfold ret at 1 in Hres. unfold newDate at 1 in Hres. cbv beta iota in Hres.
      destruct (calculateReview clock DEFAULT_CONFIG _ _ _ _ rating _ (S n))
        as [reviewResult n1].
      destruct (newDueDate reviewResult) as [newDue|]; [|subst res; discriminate].
      destruct (getNextReviewOptions clock DEFAULT_CONFIG _ _ _ _ 0 n1) as [options n2].
      subst res. simpl. intros _. eexists. split; [apply lookup_insert_eq|].
      simpl. repeat split.
      intros key Hkey. apply lookup_insert_ne. congruence.
    + unfold createProgress in Hres.
      destruct (bool_decide (userId ∈ users d) && cardExists d cardId);
        [|subst res; discriminate].
      unfold bind in Hres. unfold ret at 1 in Hres. unfold newDate at 1 2 in Hres.
      cbv beta iota in Hres.
      destruct (calculateReview clock DEFAULT_CONFIG _ _ _ _ rating _ (S (S n)))
        as [reviewResult n1].
      destruct (newDueDate reviewResult) as [newDue|]; [|subst res; discriminate].
      destruct (getNextReviewOptions clock DEFAULT_CONFIG _ _ _ _ 0 n1) as [options n2].
      subst res. simpl. intros _. eexists. split; [apply lookup_insert_eq|].
      simpl. repeat split.
      intros key Hkey. rewrite !lookup_insert_ne by congruence. reflexivity.
  - intros clock userId cardId d n.
    remember (run (resetCard clock userId cardId d) n) as res eqn:Hres.
    unfold run, resetCard, bind, newDate in Hres.
    destruct (findUnique d userId cardId) as [p|] eqn:Hfind.
    + subst res. simpl. intros _. eexists. split; [apply lookup_insert_eq|reflexivity].
    + unfold createProgress in Hres.
      destruct (bool_decide (userId ∈ users d) && cardExists d cardId);
        [|subst res; discriminate].
      unfold bind, ret, newDate in Hres. subst res. simpl. intros _.
      eexists. split; [apply lookup_insert_eq|reflexivity].
Qed.

Lemma review_increments_solved_count_witness :
  (exists after : UserTheoryProgress,
      progressEntries
        (snd (run (reviewCard tickingClock 7 "card-1" good None (sampleDb anHourAgo)) 0%nat))
        !! (7, "card-1"%string) = Some after
      /\ p_solvedCount after = 4)
  /\ (exists after : UserTheoryProgress,
         progressEntries
           (snd (run (reviewCard tickingClock 7 "card-1" again None freshDb) 0%nat))
           !! (7, "card-1"%string) = Some after
         /\ p_solvedCount after = 1)
  /\ (exists after : UserTheoryProgress,
         progressEntries
           (snd (run (resetCard tickingClock 7 "card-1" (sampleDb anHourAgo)) 0%nat))
           !! (7, "card-1"%string) = Some after
         /\ p_solvedCount after = 0).
Proof.
  split; [|split].
  - destruct (proj1 review_increments_solved_count tickingClock 7 "card-1"%string good None
                (sampleDb anHourAgo) 0%nat)
      as [after [Hlook [Hsolved _]]].
    + vm_compute. reflexivity.
    + exists after. split; [exact Hlook|]. rewrite Hsolved. vm_compute. reflexivity.
  - destruct (proj1 review_increments_solved_count tickingClock 7 "card-1"%string again None
                freshDb 0%nat)
      as [after [Hlook [Hsolved _]]].
    + vm_compute. reflexivity.
    + exists after. split; [exact Hlook|]. rewrite Hsolved. vm_compute. reflexivity.
  - apply (proj2 review_increments_solved_count tickingClock 7 "card-1"%string
             (sampleDb anHourAgo) 0%nat).
    vm_compute. reflexivity.
Defined.

(** ** Further properties of the calculator *)

(** As [unfold_review], leaving the arithmetic of the intervals folded. *)
Ltac unfold_review_arith :=
  unfold run, calculateReview, handleNewCard, handleLearningCard,
    handleReviewCard, handleRelearningCard, bind, ret, newDate;
  cbn [fst snd newInterval newDueDate newEaseFactor newCardState newLearningStep
       lapseCountIncrement].

Lemma inject_Z_le (a b : Z) : a <= b -> (inject_Z a <= inject_Z b)%Q.
Proof. intro H. rewrite <- Zle_Qle. exact H. Qed.

(** [Math.max(1, Math.floor(a * m))] grows with the interval and with the
    multiplier, for non-negative values. *)
Lemma scaled_interval_mono (a a' : Z) (m m' : Q) :
  0 <= a -> a <= a' -> (0 <= m)%Q -> (m <= m')%Q ->
  Z.max 1 (Qfloor (inject_Z a * m)) <= Z.max 1 (Qfloor (inject_Z a' * m')).
Proof.
  intros Ha Haa Hm Hmm.
  apply Z.max_le_compat_l. apply Qfloor_resp_le.
  pose proof (inject_Z_le 0 a Ha) as H0. pose proof (inject_Z_le a a' Haa) as H1.
  change (inject_Z 0) with 0%Q in H0.
  nra.
Qed.

Lemma scaled_interval_ge (a : Z) (m : Q) :
  1 <= a -> (1 <= m)%Q -> a <= Z.max 1 (Qfloor (inject_Z a * m)).
Proof.
  intros Ha Hm.
  assert (Hle : a <= Qfloor (inject_Z a * m)).
  { rewrite <- (Qfloor_Z a) at 1. apply Qfloor_resp_le.
    pose proof (inject_Z_le 1 a Ha) as H1. change (inject_Z 1) with 1%Q in H1. nra. }
  lia.
Qed.

Lemma Qmult_grows (x b : Q) : (0 <= x)%Q -> (1 <= b)%Q -> (x <= x * b)%Q.
Proof. intros Hx Hb. nra. Qed.

Lemma Qmult_mono_nonneg (x x' b : Q) :
  (x <= x')%Q -> (0 <= b)%Q -> (x * b <= x' * b)%Q.
Proof. intros Hx Hb. nra. Qed.

Lemma adjusted_interval_mono (interval daysLate daysLate' : Z) :
  daysLate <= daysLate' ->
  Z.max 1 (interval + Qfloor (inject_Z daysLate * 0.25))
  <= Z.max 1 (interval + Qfloor (inject_Z daysLate' * 0.25)).
Proof.
  intro H. apply Z.max_le_compat_l. apply Z.add_le_mono_l. apply Qfloor_resp_le.
  pose proof (inject_Z_le _ _ H). lra.
Qed.

Lemma adjusted_interval_ge (interval daysLate : Z) :
  1 <= interval -> 0 <= daysLate ->
  interval <= Z.max 1 (interval + Qfloor (inject_Z daysLate * 0.25)).
Proof.
  intros Hi Hd.
  assert (0 <= Qfloor (inject_Z daysLate * 0.25)).
  { change 0 with (Qfloor (inject_Z 0)). apply Qfloor_resp_le.
    pose proof (inject_Z_le 0 daysLate Hd) as H0. change (inject_Z 0) with 0%Q in *. lra. }
  lia.
Qed.


(** X2. The shape of the state machine: no outcome is in state NEW; a card
    in NEW or LEARNING never lands in RELEARNING and a card in REVIEW or
    RELEARNING never lands in LEARNING; [easy] always lands in REVIEW and
    [again] never does; an outcome in REVIEW is at learning step 0; and the
    ease factor changes only on a REVIEW card. *)
Theorem state_machine_shape :
  forall (clock : nat -> Z) (config : SpacedRepetitionConfig)
         (state : CardState) (interval : Z) (ease : Q) (step : Z)
         (rating : Rating) (daysLate : Z) (n : nat),
    let r := run (calculateReview clock config state interval ease step rating daysLate) n in
    newCardState r <> NEW
    /\ newCardState r <> match state with
                         | NEW | LEARNING => RELEARNING
                         | REVIEW | RELEARNING => LEARNING
                         end
    /\ match rating with
       | easy => newCardState r = REVIEW
       | again => newCardState r <> REVIEW
       | hard | good => True
       end
    /\ (if CardState_eqb (newCardState r) REVIEW then newLearningStep r = 0 else True)
    /\ newEaseFactor r = match state with
                         | NEW | LEARNING => initialEaseFactor config
                         | RELEARNING => ease
                         | REVIEW => newEaseFactor r
                         end.
Proof.
  intros clock config state interval ease step rating daysLate n r. subst r.
  destruct state, rating; unfold_review; split_graduation;
    repeat split; discriminate.
Qed.

(** X3. On a REVIEW card the three passing answers are ordered: when
    [0 <= hardMultiplier <= easeFactor <= maxEaseFactor] and
    [easyBonus >= 1], the interval offered for [hard] is at most the one for
    [good], which is at most the one for [easy]. *)
Theorem review_buttons_ordered :
  forall (clock : nat -> Z) (config : SpacedRepetitionConfig)
         (interval : Z) (ease : Q) (step daysLate : Z) (n : nat),
    (0 <= hardMultiplier config)%Q ->
    (hardMultiplier config <= ease)%Q ->
    (ease <= maxEaseFactor config)%Q ->
    (1 <= easyBonus config)%Q ->
    exists h g e : Z,
      newInterval (run (calculateReview clock config REVIEW interval ease step hard daysLate) n)
      = Some h
      /\ newInterval (run (calculateReview clock config REVIEW interval ease step good daysLate) n)
         = Some g
      /\ newInterval (run (calculateReview clock config REVIEW interval ease step easy daysLate) n)
         = Some e
      /\ h <= g <= e.
Proof.
  intros clock config interval ease step daysLate n Hh0 Hhe Hem Hb.
  unfold_review_arith. do 3 eexists. repeat split.
  - apply scaled_interval_mono; [lia|lia|assumption|assumption].
  - set (a := Z.max 1 (interval + Qfloor (inject_Z daysLate * 0.25))).
    apply Z.max_le_compat_l. apply Qfloor_resp_le.
    assert (Ha : (1 <= inject_Z a)%Q).
    { change 1%Q with (inject_Z 1). apply inject_Z_le. subst a. lia. }
    assert (He : (ease <= Qmin (maxEaseFactor config) (ease + 0.15))%Q)
      by (apply Q.min_glb; lra).
    assert (Hpos : (0 <= ease)%Q) by lra.
    set (e' := Qmin (maxEaseFactor config) (ease + 0.15)) in *.
    assert (H1 : (inject_Z a * ease <= inject_Z a * e')%Q) by nra.
    assert (H0 : (0 <= inject_Z a * e')%Q) by nra.
    pose proof (Qmult_grows (inject_Z a * e') (easyBonus config) H0 Hb) as H2.
    lra.
Qed.

Lemma review_buttons_ordered_witness :
  exists h g e : Z,
    newInterval (run (calculateReview tickingClock DEFAULT_CONFIG REVIEW 10 2.0 0 hard 8) 0%nat)
    = Some h
    /\ newInterval (run (calculateReview tickingClock DEFAULT_CONFIG REVIEW 10 2.0 0 good 8) 0%nat)
       = Some g
    /\ newInterval (run (calculateReview tickingClock DEFAULT_CONFIG REVIEW 10 2.0 0 easy 8) 0%nat)
       = Some e
    /\ h <= g <= e.
Proof.
  apply (review_buttons_ordered tickingClock DEFAULT_CONFIG 10 2.0 0 8 0%nat);
    simpl; lra.
Defined.

(** X4. A passing answer on a REVIEW card that is not answered early never
    shortens the interval, as long as the factor it applies is at least 1:
    for [interval >= 1] and [daysLate >= 0], [hard] returns at least
    [interval] when [hardMultiplier >= 1], [good] does when
    [easeFactor >= 1], and [easy] does when moreover
    [easeFactor <= maxEaseFactor] and [easyBonus >= 1]. *)
Theorem review_interval_never_shrinks :
  forall (clock : nat -> Z) (config : SpacedRepetitionConfig)
         (interval : Z) (ease : Q) (step daysLate : Z) (n : nat),
    1 <= interval ->
    0 <= daysLate ->
    ((1 <= hardMultiplier config)%Q ->
     exists v : Z,
       newInterval (run (calculateReview clock config REVIEW interval ease step hard daysLate) n)
       = Some v
       /\ interval <= v)
    /\ ((1 <= ease)%Q ->
        exists v : Z,
          newInterval (run (calculateReview clock config REVIEW interval ease step good daysLate) n)
          = Some v
          /\ interval <= v)
    /\ ((1 <= ease)%Q -> (ease <= maxEaseFactor config)%Q -> (1 <= easyBonus config)%Q ->
        exists v : Z,
          newInterval (run (calculateReview clock config REVIEW interval ease step easy daysLate) n)
          = Some v
          /\ interval <= v).
Proof.
  intros clock config interval ease step daysLate n Hi Hd.
  pose proof (adjusted_interval_ge interval daysLate Hi Hd) as Hadj.
  split; [|split].
  - intro Hm. unfold_review_arith. eexists. split; [reflexivity|].
    etransitivity; [exact Hadj|]. apply scaled_interval_ge; [lia|exact Hm].
  - intro Hm. unfold_review_arith. eexists. split; [reflexivity|].
    etransitivity; [exact Hadj|]. apply scaled_interval_ge; [lia|exact Hm].
  - intros He Hmax Hb. unfold_review_arith. eexists. split; [reflexivity|].
    etransitivity; [exact Hadj|].
    set (a := Z.max 1 (interval + Qfloor (inject_Z daysLate * 0.25))) in *.
    assert (Hle : a <= Qfloor (inject_Z a * Qmin (maxEaseFactor config) (ease + 0.15)
                               * easyBonus config)).
    { rewrite <- (Qfloor_Z a) at 1. apply Qfloor_resp_le.
      assert (Ha : (1 <= inject_Z a)%Q).
      { change 1%Q with (inject_Z 1). apply inject_Z_le. subst a. lia. }
      assert (He' : (1 <= Qmin (maxEaseFactor config) (ease + 0.15))%Q)
        by (apply Q.min_glb; lra).
      set (e' := Qmin (maxEaseFactor config) (ease + 0.15)) in *.
      assert (H1 : (inject_Z a <= inject_Z a * e')%Q)
        by (apply Qmult_grows; lra).
      assert (H2 : (inject_Z a * e' <= inject_Z a * e' * easyBonus config)%Q)
        by (apply Qmult_grows; lra).
      lra. }
    lia.
Qed.

Lemma review_interval_never_shrinks_witness :
  exists v : Z,
    newInterval (run (calculateReview tickingClock DEFAULT_CONFIG REVIEW 10 1.3 0 hard 3) 0%nat)
    = Some v
    /\ 10 <= v.
Proof.
  refine (proj1 (review_interval_never_shrinks tickingClock DEFAULT_CONFIG 10 1.3 0 3 0%nat
                   _ _) _).
  - lia.
  - lia.
  - simpl. lra.
Defined.

(** X5. Answering a REVIEW card later never shortens the interval it gets:
    with non-negative multipliers, the interval returned for [hard], [good]
    and [easy] does not decrease when [daysLate] grows. *)
Theorem lateness_never_shortens :
  forall (clock : nat -> Z) (config : SpacedRepetitionConfig)
         (interval : Z) (ease : Q) (step daysLate daysLate' : Z) (rating : Rating)
         (n n' : nat),
    daysLate <= daysLate' ->
    (0 <= hardMultiplier config)%Q ->
    (0 <= ease)%Q ->
    (0 <= maxEaseFactor config)%Q ->
    (0 <= easyBonus config)%Q ->
    match rating with
    | again => True
    | hard | good | easy =>
        exists v v' : Z,
          newInterval
            (run (calculateReview clock config REVIEW interval ease step rating daysLate) n)
          = Some v
          /\ newInterval
               (run (calculateReview clock config REVIEW interval ease step rating daysLate') n')
             = Some v'
          /\ v <= v'
    end.
Proof.
  intros clock config interval ease step daysLate daysLate' rating n n'
         Hlate Hh He Hmax Hb.
  pose proof (adjusted_interval_mono interval daysLate daysLate' Hlate) as Hadj.
  destruct rating; try exact I; unfold_review_arith; do 2 eexists;
    (split; [reflexivity|]); (split; [reflexivity|]).
  - apply scaled_interval_mono; [lia|exact Hadj|exact Hh|lra].
  - apply scaled_interval_mono; [lia|exact Hadj|exact He|lra].
  - set (a := Z.max 1 (interval + Qfloor (inject_Z daysLate * 0.25))) in *.
    set (a' := Z.max 1 (interval + Qfloor (inject_Z daysLate' * 0.25))) in *.
    apply Z.max_le_compat_l. apply Qfloor_resp_le.
    assert (Ha : (0 <= inject_Z a)%Q).
    { change 0%Q with (inject_Z 0). apply inject_Z_le. subst a. lia. }
    pose proof (inject_Z_le a a' Hadj) as Haa.
    assert (He' : (0 <= Qmin (maxEaseFactor config) (ease + 0.15))%Q)
      by (apply Q.min_glb; lra).
    set (e' := Qmin (maxEaseFactor config) (ease + 0.15)) in *.
    assert (H1 : (inject_Z a * e' <= inject_Z a' * e')%Q)
      by (apply Qmult_mono_nonneg; assumption).
    apply Qmult_mono_nonneg; assumption.
Qed.

Lemma lateness_never_shortens_witness :
  exists v v' : Z,
    newInterval (run (calculateReview tickingClock DEFAULT_CONFIG REVIEW 10 2.5 0 easy 0) 0%nat)
    = Some v
    /\ newInterval (run (calculateReview tickingClock DEFAULT_CONFIG REVIEW 10 2.5 0 easy 40) 1%nat)
       = Some v'
    /\ v <= v'.
Proof.
  apply (lateness_never_shortens tickingClock DEFAULT_CONFIG 10 2.5 0 0 40 easy 0%nat 1%nat);
    simpl; try lra; lia.
Defined.

(** X6. With at least two learning steps, none of them 0, and a current
    step that indexes them, the outcome's step indexes them too, and an
    outcome in LEARNING or RELEARNING carries the duration of the step it is
    at as its interval. *)
Theorem learning_outcome_is_at_its_step :
  forall (clock : nat -> Z) (config : SpacedRepetitionConfig)
         (state : CardState) (interval : Z) (ease : Q) (step : Z)
         (rating : Rating) (daysLate : Z) (n : nat),
    2 <= js_length (learningSteps config) ->
    Forall (fun s => s <> 0) (learningSteps config) ->
    0 <= step < js_length (learningSteps config) ->
    let r := run (calculateReview clock config state interval ease step rating daysLate) n in
    0 <= newLearningStep r < js_length (learningSteps config)
    /\ (if isMinuteInterval (newInterval r) (newCardState r)
        then newInterval r = js_index (learningSteps config) (newLearningStep r)
        else newLearningStep r = 0).
Proof.
  intros clock config state interval ease step rating daysLate n Hlen Hnz Hstep r.
  subst r.
  assert (Hor : forall i, 0 <= i < js_length (learningSteps config) ->
                js_or (js_index (learningSteps config) i)
                      (js_index (learningSteps config) 0)
                = js_index (learningSteps config) i).
  { intros i Hi.
    destruct (js_index_in_range (learningSteps config) i) as [v Hv]; [lia|lia|].
    rewrite Hv. simpl.
    pose proof (js_index_Forall _ _ i v Hnz Hv) as Hvnz. simpl in Hvnz.
    destruct (Z.eqb_spec v 0); [contradiction|reflexivity]. }
  destruct state, rating; unfold_review; split_graduation;
    rewrite ?Hor by lia; try (split; [lia|reflexivity]);
    match goal with
    | H : (_ <=? _) = false |- _ => apply Z.leb_gt in H; split; [lia|reflexivity]
    end.
Qed.

Lemma learning_outcome_is_at_its_step_witness :
  0 <= newLearningStep
         (run (calculateReview tickingClock DEFAULT_CONFIG LEARNING 1 2.5 0 good 0) 0%nat)
    < js_length (learningSteps DEFAULT_CONFIG)
  /\ (if isMinuteInterval
           (newInterval
              (run (calculateReview tickingClock DEFAULT_CONFIG LEARNING 1 2.5 0 good 0) 0%nat))
           (newCardState
              (run (calculateReview tickingClock DEFAULT_CONFIG LEARNING 1 2.5 0 good 0) 0%nat))
      then newInterval
             (run (calculateReview tickingClock DEFAULT_CONFIG LEARNING 1 2.5 0 good 0) 0%nat)
           = js_index (learningSteps DEFAULT_CONFIG)
               (newLearningStep
                  (run (calculateReview tickingClock DEFAULT_CONFIG LEARNING 1 2.5 0 good 0) 0%nat))
      else newLearningStep
             (run (calculateReview tickingClock DEFAULT_CONFIG LEARNING 1 2.5 0 good 0) 0%nat)
           = 0).
Proof.
  apply (learning_outcome_is_at_its_step tickingClock DEFAULT_CONFIG LEARNING 1 2.5 0 good 0 0%nat).
  - vm_compute. discriminate.
  - simpl. repeat constructor; discriminate.
  - vm_compute. split; [discriminate|reflexivity].
Defined.

(** ** Further properties of the review orchestrator *)

Lemma getNextReviewOptions_ticks clock config state interval ease step daysLate n :
  snd (getNextReviewOptions clock config state interval ease step daysLate n) = (4 + n)%nat.
Proof.
  unfold getNextReviewOptions, bind, ret.
  repeat match goal with
         | |- context [calculateReview ?c ?cf ?s ?i ?e ?st ?r ?dl ?k] =>
             let H := fresh "Hticks" in
             pose proof (calculateReview_ticks c cf s i e st r dl k) as H;
             destruct (calculateReview c cf s i e st r dl k) as [? ?];
             simpl in H; subst
         end.
  reflexivity.
Qed.

(** The preview does not depend on the clock. *)
Lemma getNextReviewOptions_clock_free clock clock' config state interval ease step
    daysLate n n' :
  run (getNextReviewOptions clock config state interval ease step daysLate) n
  = run (getNextReviewOptions clock' config state interval ease step daysLate) n'.
Proof.
  unfold run, getNextReviewOptions, bind, ret.
  repeat match goal with
         | |- context [calculateReview ?c ?cf ?s ?i ?e ?st ?r ?dl ?k] =>
             let H := fresh "Hr" in
             let res := fresh "res" in
             let k' := fresh "k" in
             destruct (calculateReview c cf s i e st r dl k) as [res k'] eqn:H;
             apply (f_equal fst) in H; simpl in H
         end.
  simpl. unfold daysToDays.
  repeat match goal with
         | |- context [if ?b then ?x else ?x] => replace (if b then x else x) with x
                                                  by (destruct b; reflexivity)
         end.
  subst.
  f_equal; apply newInterval_clock_free.
Qed.

Lemma newInterval_defined_with_due clock config state interval ease step rating daysLate n due :
  newDueDate (run (calculateReview clock config state interval ease step rating daysLate) n)
  = Some due ->
  exists v,
    newInterval (run (calculateReview clock config state interval ease step rating daysLate) n)
    = Some v.
Proof.
  destruct state, rating; unfold_review; split_graduation; intro H;
    try (eexists; reflexivity);
    match goal with
    | |- exists v, ?o = Some v => destruct o; [eexists; reflexivity|discriminate]
    end.
Qed.

(** What [reviewCard] returns and writes, from where the review starts. *)
Lemma reviewCard_spec clock userId cardId rating responseTime d n :
  reviewCard clock userId cardId rating responseTime d n
  = match startOfReview clock userId cardId d n with
    | None => ((Throw ForeignKeyViolation, d), n)
    | Some (p, d1, k) =>
        match reviewedRow clock rating k p with
        | None => ((Throw InvalidDateValue, d1), (2 + k)%nat)
        | Some p' =>
            ((Ok (responseOf userId cardId p' (previewOf clock p' (2 + k)%nat)),
              putProgress d1 userId cardId p'),
             (6 + k)%nat)
        end
    end.
Proof.
  assert (Hrow : forall (p : UserTheoryProgress) (d1 : Db) (k : nat),
             (let (a, n') := newDate clock k in
              (let daysLate :=
                 match p_dueDate p with
                 | Some due => Z.max 0 (floorDays a due)
                 | None => 0
                 end in
               reviewResult <- calculateReview clock DEFAULT_CONFIG (p_cardState p)
                                 (p_interval p) (p_easeFactor p) (p_learningStep p)
                                 rating daysLate ;;
               match newDueDate reviewResult with
               | None => ret (Throw InvalidDateValue, d1)
               | Some newDue =>
                   let updatedProgress := reviewUpdate reviewResult newDue a p in
                   let d2 := putProgress d1 userId cardId updatedProgress in
                   nextReviewIntervals <- getNextReviewOptions clock DEFAULT_CONFIG
                                            (newCardState reviewResult)
                                            (default 0 (newInterval reviewResult))
                                            (newEaseFactor reviewResult)
                                            (newLearningStep reviewResult) 0 ;;
                   ret (Ok {| resp_userId := userId;
                              resp_cardId := cardId;
                              resp_newInterval := newInterval reviewResult;
                              resp_newDueDate := newDue;
                              resp_easeFactor := newEaseFactor reviewResult;
                              resp_cardState := newCardState reviewResult;
                              resp_reviewCount := p_reviewCount updatedProgress;
                              resp_lapseCount := p_lapseCount updatedProgress;
                              resp_nextReviewIntervals := nextReviewIntervals |},
                        d2)
               end) n')
             = match reviewedRow clock rating k p with
               | None => ((Throw InvalidDateValue, d1), (2 + k)%nat)
               | Some p' =>
                   ((Ok (responseOf userId cardId p' (previewOf clock p' (2 + k)%nat)),
                     putProgress d1 userId cardId p'),
                    (6 + k)%nat)
               end).
  { intros p d1 k. unfold newDate, reviewedRow, daysLateAt, bind, run.
    pose proof (calculateReview_ticks clock DEFAULT_CONFIG (p_cardState p) (p_interval p)
                  (p_easeFactor p) (p_learningStep p) rating
                  match p_dueDate p with
                  | Some due => Z.max 0 (floorDays (clock k) due)
                  | None => 0
                  end (S k)) as Hticks.
    pose proof (newInterval_defined_with_due clock DEFAULT_CONFIG (p_cardState p)
                  (p_interval p) (p_easeFactor p) (p_learningStep p) rating
                  match p_dueDate p with
                  | Some due => Z.max 0 (floorDays (clock k) due)
                  | None => 0
                  end (S k)) as Hdef.
    unfold run in Hdef.
    destruct (calculateReview clock DEFAULT_CONFIG (p_cardState p) (p_interval p)
                (p_easeFactor p) (p_learningStep p) rating
                match p_dueDate p with
                | Some due => Z.max 0 (floorDays (clock k) due)
                | None => 0
                end (S k)) as [r n1].
    simpl in Hticks, Hdef. subst n1. simpl.
    destruct (newDueDate r) as [due|] eqn:Hdue; simpl; [|reflexivity].
    destruct (Hdef due eq_refl) as [v Hv].
    pose proof (getNextReviewOptions_ticks clock DEFAULT_CONFIG (newCardState r)
                  (default 0 (newInterval r)) (newEaseFactor r) (newLearningStep r) 0
                  (S (S k))) as Hticks'.
    unfold previewOf, run, ret, responseOf. simpl.
    rewrite Hv in *. simpl in *.
    destruct (getNextReviewOptions clock DEFAULT_CONFIG (newCardState r) v
                (newEaseFactor r) (newLearningStep r) 0 (S (S k))) as [options n2].
    simpl in Hticks'. subst n2. reflexivity. }
  unfold reviewCard, startOfReview, bind.
  destruct (findUnique d userId cardId) as [p|].
  - exact (Hrow p d n).
  - unfold createProgress.
    destruct (bool_decide (userId ∈ users d) && cardExists d cardId).
    + exact (Hrow (initialProgress (nextId d) userId cardId (clock n))
               (afterCreate d userId cardId
                  (initialProgress (nextId d) userId cardId (clock n)))
               (S n)).
    + reflexivity.
Qed.

(** The default learning steps are non-empty and positive, so under
    [DEFAULT_CONFIG] every outcome on a non-negative step has an interval
    and a due date. *)
Lemma default_review_defined clock state interval ease step rating daysLate n :
  0 <= step ->
  exists v due,
    newInterval
      (run (calculateReview clock DEFAULT_CONFIG state interval ease step rating daysLate) n)
    = Some v
    /\ newDueDate
         (run (calculateReview clock DEFAULT_CONFIG state interval ease step rating daysLate) n)
       = Some due
    /\ 1 <= v.
Proof.
  intro Hstep.
  assert (Hne : learningSteps DEFAULT_CONFIG <> []) by discriminate.
  assert (Hall : Forall (fun s => 1 <= s) (learningSteps DEFAULT_CONFIG))
    by (simpl; repeat constructor; lia).
  assert (Hor : forall i, exists v,
             js_or (js_index (learningSteps DEFAULT_CONFIG) i)
                   (js_index (learningSteps DEFAULT_CONFIG) 0) = Some v /\ 1 <= v)
    by (intro i; apply js_or_index_positive; assumption).
  assert (Hnext : (js_length (learningSteps DEFAULT_CONFIG) <=? step + 1) = false ->
                  js_index (learningSteps DEFAULT_CONFIG) (step + 1) = Some 10).
  { intro Hlt. apply Z.leb_gt in Hlt. change (js_length _) with 2 in Hlt.
    replace step with 0 by lia. reflexivity. }
  destruct state, rating;
    unfold run, calculateReview, handleNewCard, handleLearningCard,
      handleReviewCard, handleRelearningCard, bind, ret, newDate;
    cbn [fst snd newInterval newDueDate];
    try (destruct (js_length (learningSteps DEFAULT_CONFIG) <=? step + 1) eqn:Hlen;
         cbn [fst snd newInterval newDueDate]; rewrite ?Hnext by reflexivity);
    try (destruct (Hor step) as [v [Hv Hpos]]; rewrite Hv);
    try (do 2 eexists; split; [reflexivity|split; [reflexivity|simpl; lia]]).
Qed.


(** Under [DEFAULT_CONFIG] the ease factor stays within [[1.3, 2.5]]. *)
Lemma default_ease_bounds clock state interval ease step rating daysLate n :
  (1.3 <= ease)%Q -> (ease <= 2.5)%Q ->
  (1.3 <= newEaseFactor
            (run (calculateReview clock DEFAULT_CONFIG state interval ease step rating
                    daysLate) n))%Q
  /\ (newEaseFactor
        (run (calculateReview clock DEFAULT_CONFIG state interval ease step rating
                daysLate) n) <= 2.5)%Q.
Proof.
  intros Hlo Hhi.
  destruct state, rating; unfold_review_arith; split_graduation;
    cbn [minEaseFactor maxEaseFactor initialEaseFactor DEFAULT_CONFIG];
    try (split; assumption); try (split; lra).
  - split; [apply Q.le_max_l|apply Q.max_lub; lra].
  - split; [apply Q.le_max_l|apply Q.max_lub; lra].
  - split; [apply Q.min_glb; lra|apply Q.le_min_l].
Qed.

(** Steps, states and lapses of the outcomes under [DEFAULT_CONFIG]. *)
Lemma default_review_steps clock state interval ease step rating daysLate n :
  0 <= step < 2 ->
  (isLearningState state = false -> step = 0) ->
  let r := run (calculateReview clock DEFAULT_CONFIG state interval ease step rating
                  daysLate) n in
  0 <= newLearningStep r < 2
  /\ (isLearningState (newCardState r) = false -> newLearningStep r = 0)
  /\ newCardState r <> NEW
  /\ 0 <= lapseCountIncrement r <= 1.
Proof.
  intros Hstep Hzero r. subst r.
  destruct state, rating; unfold_review; split_graduation;
    repeat split; try lia; try discriminate; try reflexivity;
    try (intros _; apply Hzero; reflexivity);
    try match goal with
        | H : (_ <=? _) = false |- _ =>
            apply Z.leb_gt in H; unfold js_length in H; simpl in H; lia
        end.
Qed.

(** A review of a well-formed row writes a well-formed row. *)
Lemma reviewedRow_wellFormed clock rating n p p' :
  wellFormedRow p ->
  reviewedRow clock rating n p = Some p' ->
  wellFormedRow p'
  /\ p_cardState p' <> NEW
  /\ is_Some (p_dueDate p')
  /\ p_lastReviewDate p' = Some (clock n).
Proof.
  intros (Hlo & Hhi & Hint & Hstep & Hzero & Hlapse & Hsolved) Hrow.
  unfold reviewedRow in Hrow.
  set (r := run (calculateReview clock DEFAULT_CONFIG (p_cardState p) (p_interval p)
                   (p_easeFactor p) (p_learningStep p) rating (daysLateAt (clock n) p))
                (S n)) in *.
  destruct (default_review_defined clock (p_cardState p) (p_interval p) (p_easeFactor p)
              (p_learningStep p) rating (daysLateAt (clock n) p) (S n))
    as [v [due [Hv [Hdue Hpos]]]]; [lia|].
  fold r in Hv, Hdue. rewrite Hdue in Hrow. simpl in Hrow.
  injection Hrow as <-.
  pose proof (default_ease_bounds clock (p_cardState p) (p_interval p) (p_easeFactor p)
                (p_learningStep p) rating (daysLateAt (clock n) p) (S n) Hlo Hhi)
    as [Hlo' Hhi'].
  pose proof (default_review_steps clock (p_cardState p) (p_interval p) (p_easeFactor p)
                (p_learningStep p) rating (daysLateAt (clock n) p) (S n) Hstep Hzero)
    as (Hstep' & Hzero' & Hnew & Hinc).
  fold r in Hlo', Hhi', Hstep', Hzero', Hnew, Hinc.
  unfold wellFormedRow, reviewUpdate. simpl. rewrite Hv. simpl.
  repeat split; try assumption; try lia.
  eexists. reflexivity.
Qed.

Lemma initialProgress_wellFormed id userId cardId t :
  wellFormedRow (initialProgress id userId cardId t).
Proof.
  unfold wellFormedRow, initialProgress. simpl.
  repeat split; try lia; try lra.
Qed.

Lemma findUnique_putProgress d userId cardId p :
  findUnique (putProgress d userId cardId p) userId cardId = Some p.
Proof. unfold findUnique, putProgress. simpl. apply lookup_insert_eq. Qed.

Lemma startOfReview_stored clock userId cardId d n p :
  findUnique d userId cardId = Some p ->
  startOfReview clock userId cardId d n = Some (p, d, n).
Proof. intro H. unfold startOfReview. rewrite H. reflexivity. Qed.

(** X7. A first review for a user or a card that does not exist fails on
    the foreign keys of the progress table: nothing is written and the
    clock is not read. *)
Theorem first_review_of_unknown_card_writes_nothing :
  forall (clock : nat -> Z) (userId : Z) (cardId : string) (rating : Rating)
         (responseTime : option Z) (d : Db) (n : nat),
    findUnique d userId cardId = None ->
    userId ∉ users d \/ cardExists d cardId = false ->
    reviewCard clock userId cardId rating responseTime d n
    = ((Throw ForeignKeyViolation, d), n).
Proof.
  intros clock userId cardId rating responseTime d n Hnone Hfk.
  rewrite reviewCard_spec. unfold startOfReview. rewrite Hnone.
  destruct Hfk as [Huser|Hcard].
  - rewrite bool_decide_eq_false_2 by exact Huser. reflexivity.
  - rewrite Hcard, andb_false_r. reflexivity.
Qed.

Lemma first_review_of_unknown_card_writes_nothing_witness :
  reviewCard tickingClock 7 "card-2" good None freshDb 0%nat
  = ((Throw ForeignKeyViolation, freshDb), 0%nat).
Proof.
  apply (first_review_of_unknown_card_writes_nothing tickingClock 7 "card-2"%string good
           None freshDb 0%nat).
  - reflexivity.
  - right. reflexivity.
Defined.




(** X9. Reviews keep the stored rows well formed: when the stored row, if
    there is one, has its ease factor in [[1.3, 2.5]], a positive interval, a
    step that indexes the default learning steps (0 outside LEARNING and
    RELEARNING) and [0 <= lapseCount <= reviewCount], a successful review
    leaves a row with the same properties, which moreover is not NEW and has
    a due date and a last review date. *)
Theorem review_keeps_rows_well_formed :
  forall (clock : nat -> Z) (userId : Z) (cardId : string) (rating : Rating)
         (responseTime : option Z) (d : Db) (n : nat),
    (forall p, findUnique d userId cardId = Some p -> wellFormedRow p) ->
    match run (reviewCard clock userId cardId rating responseTime d) n with
    | (Ok _, d') =>
        exists after : UserTheoryProgress,
          findUnique d' userId cardId = Some after
          /\ wellFormedRow after
          /\ p_cardState after <> NEW
          /\ is_Some (p_dueDate after)
          /\ is_Some (p_lastReviewDate after)
    | (Throw _, _) => True
    end.
Proof.
  intros clock userId cardId rating responseTime d n Hwf.
  unfold run. rewrite reviewCard_spec. unfold startOfReview.
  destruct (findUnique d userId cardId) as [p|].
  - destruct (reviewedRow clock rating n p) as [p'|] eqn:Hp'; simpl; [|exact I].
    destruct (reviewedRow_wellFormed clock rating n p p' (Hwf p eq_refl) Hp')
      as (Hwf' & Hnew & Hdue & Hlast).
    exists p'. split; [apply findUnique_putProgress|].
    repeat split; try assumption; try apply Hwf'.
    rewrite Hlast. eexists. reflexivity.
  - destruct (bool_decide (userId ∈ users d) && cardExists d cardId); simpl; [|exact I].
    destruct (reviewedRow clock rating (S n)
                (initialProgress (nextId d) userId cardId (clock n))) as [p'|] eqn:Hp';
      simpl; [|exact I].
    destruct (reviewedRow_wellFormed clock rating (S n) _ p'
                (initialProgress_wellFormed _ _ _ _) Hp')
      as (Hwf' & Hnew & Hdue & Hlast).
    exists p'. split; [apply findUnique_putProgress|].
    repeat split; try assumption; try apply Hwf'.
    rewrite Hlast. eexists. reflexivity.
Qed.

Lemma review_keeps_rows_well_formed_witness :
  exists after : UserTheoryProgress,
    findUnique (snd (run (reviewCard tickingClock 7 "card-1" again None
                            (sampleDb anHourAgo)) 0%nat)) 7 "card-1"
    = Some after
    /\ wellFormedRow after
    /\ p_cardState after <> NEW
    /\ is_Some (p_dueDate after)
    /\ is_Some (p_lastReviewDate after).
Proof.
  refine (review_keeps_rows_well_formed tickingClock 7 "card-1"%string again None
            (sampleDb anHourAgo) 0%nat _).
  intros p Hp. vm_compute in Hp. injection Hp as <-.
  unfold wellFormedRow. simpl. repeat split; try lia; try lra.
Defined.




Lemma reviewAll_step clock userId cardId rating rest d n p p' :
  findUnique d userId cardId = Some p ->
  reviewedRow clock rating n p = Some p' ->
  reviewAll clock userId cardId (rating :: rest) d n
  = reviewAll clock userId cardId rest (putProgress d userId cardId p') (6 + n)%nat.
Proof.
  intros Hfind Hrow. cbn [reviewAll]. unfold bind.
  rewrite reviewCard_spec, (startOfReview_stored _ _ _ _ _ _ Hfind), Hrow.
  reflexivity.
Qed.

Lemma reviewAll_first_step clock userId cardId rating rest d n p' :
  findUnique d userId cardId = None ->
  userId ∈ users d ->
  cardExists d cardId = true ->
  reviewedRow clock rating (S n) (initialProgress (nextId d) userId cardId (clock n))
  = Some p' ->
  reviewAll clock userId cardId (rating :: rest) d n
  = reviewAll clock userId cardId rest
      (putProgress
         (afterCreate d userId cardId (initialProgress (nextId d) userId cardId (clock n)))
         userId cardId p')
      (7 + n)%nat.
Proof.
  intros Hfind Huser Hcard Hrow. cbn [reviewAll]. unfold bind.
  rewrite reviewCard_spec. unfold startOfReview.
  rewrite Hfind, (bool_decide_eq_true_2 _ Huser), Hcard. cbn [andb].
  rewrite Hrow. reflexivity.
Qed.

(** X12. A lapse forgets the interval the card had: whatever the interval
    of a REVIEW row, after [again] the card comes back to REVIEW, by one
    [easy] or by two [good], with an interval of 1 day; the lapse count has
    grown by 1 and the ease factor has dropped by 0.2, not below 1.3. *)
Theorem lapse_forgets_previous_interval :
  forall (clock : nat -> Z) (userId : Z) (cardId : string) (d : Db) (n : nat)
         (p : UserTheoryProgress) (answers : list Rating),
    findUnique d userId cardId = Some p ->
    p_cardState p = REVIEW ->
    answers = [again; easy] \/ answers = [again; good; good] ->
    exists (d' : Db) (after : UserTheoryProgress),
      run (reviewAll clock userId cardId answers d) n = (Ok tt, d')
      /\ findUnique d' userId cardId = Some after
      /\ p_cardState after = REVIEW
      /\ p_interval after = 1
      /\ p_learningStep after = 0
      /\ p_lapseCount after = p_lapseCount p + 1
      /\ p_easeFactor after = Qmax 1.3 (p_easeFactor p - 0.2).
Proof.
  intros clock userId cardId d n p answers Hfind Hstate Hanswers.
  pose (r1 := run (calculateReview clock DEFAULT_CONFIG REVIEW (p_interval p)
                     (p_easeFactor p) (p_learningStep p) again
                     (daysLateAt (clock n) p)) (S n)).
  pose (p1 := reviewUpdate r1 (addMinutes (clock (S n)) 1) (clock n) p).
  assert (H1 : reviewedRow clock again n p = Some p1)
    by (unfold reviewedRow; rewrite Hstate; reflexivity).
  destruct Hanswers as [-> | ->].
  - pose (r2 := run (calculateReview clock DEFAULT_CONFIG RELEARNING 1
                       (Qmax 1.3 (p_easeFactor p - 0.2)) 0 easy
                       (daysLateAt (clock (6 + n)%nat) p1)) (S (6 + n))).
    pose (p2 := reviewUpdate r2 (addDays (clock (S (6 + n))) 1) (clock (6 + n)%nat) p1).
    assert (H2 : reviewedRow clock easy (6 + n) p1 = Some p2) by reflexivity.
    exists (putProgress (putProgress d userId cardId p1) userId cardId p2), p2.
    unfold run.
    rewrite (reviewAll_step _ _ _ _ _ _ _ _ _ Hfind H1).
    rewrite (reviewAll_step _ _ _ _ _ _ _ _ _ (findUnique_putProgress _ _ _ _) H2).
    split; [reflexivity|]. split; [apply findUnique_putProgress|].
    repeat split; simpl; lia.
  - pose (r2 := run (calculateReview clock DEFAULT_CONFIG RELEARNING 1
                       (Qmax 1.3 (p_easeFactor p - 0.2)) 0 good
                       (daysLateAt (clock (6 + n)%nat) p1)) (S (6 + n))).
    pose (p2 := reviewUpdate r2 (addMinutes (clock (S (6 + n))) 10) (clock (6 + n)%nat) p1).
    assert (H2 : reviewedRow clock good (6 + n) p1 = Some p2) by reflexivity.
    pose (r3 := run (calculateReview clock DEFAULT_CONFIG RELEARNING 10
                       (Qmax 1.3 (p_easeFactor p - 0.2)) 1 good
                       (daysLateAt (clock (12 + n)%nat) p2)) (S (12 + n))).
    pose (p3 := reviewUpdate r3 (addDays (clock (S (12 + n))) 1) (clock (12 + n)%nat) p2).
    assert (H3 : reviewedRow clock good (12 + n) p2 = Some p3) by reflexivity.
    exists (putProgress (putProgress (putProgress d userId cardId p1) userId cardId p2)
              userId cardId p3), p3.
    unfold run.
    rewrite (reviewAll_step _ _ _ _ _ _ _ _ _ Hfind H1).
    rewrite (reviewAll_step _ _ _ _ _ _ _ _ _ (findUnique_putProgress _ _ _ _) H2).
    change (6 + (6 + n))%nat with (12 + n)%nat.
    rewrite (reviewAll_step _ _ _ _ _ _ _ _ _ (findUnique_putProgress _ _ _ _) H3).
    split; [reflexivity|]. split; [apply findUnique_putProgress|].
    repeat split; simpl; lia.
Qed.

Lemma lapse_forgets_previous_interval_witness :
  exists (d' : Db) (after : UserTheoryProgress),
    run (reviewAll tickingClock 7 "card-1" [again; good; good] (sampleDb anHourAgo)) 0%nat
    = (Ok tt, d')
    /\ findUnique d' 7 "card-1" = Some after
    /\ p_cardState after = REVIEW
    /\ p_interval after = 1
    /\ p_learningStep after = 0
    /\ p_lapseCount after = p_lapseCount (sampleReviewRow anHourAgo) + 1
    /\ p_easeFactor after = Qmax 1.3 (p_easeFactor (sampleReviewRow anHourAgo) - 0.2).
Proof.
  apply (lapse_forgets_previous_interval tickingClock 7 "card-1"%string
           (sampleDb anHourAgo) 0%nat (sampleReviewRow anHourAgo) [again; good; good]).
  - vm_compute. reflexivity.
  - reflexivity.
  - right. reflexivity.
Defined.

(** X13. The learning path of a card the learner sees for the first time:
    with the user and the card in the database and no row yet, two [good]
    answers in a row graduate the card to REVIEW with the graduating
    interval of 1 day, due one day after the second answer was computed,
    at the initial ease factor 2.5, with two reviews and no lapse counted. *)
Theorem two_good_answers_graduate :
  forall (clock : nat -> Z) (userId : Z) (cardId : string) (d : Db) (n : nat),
    findUnique d userId cardId = None ->
    userId ∈ users d ->
    cardExists d cardId = true ->
    exists (d' : Db) (after : UserTheoryProgress),
      run (reviewAll clock userId cardId [good; good] d) n = (Ok tt, d')
      /\ findUnique d' userId cardId = Some after
      /\ p_cardState after = REVIEW
      /\ p_interval after = 1
      /\ p_dueDate after = Some (clock (8 + n)%nat + 86400000)
      /\ p_easeFactor after = 2.5%Q
      /\ p_learningStep after = 0
      /\ p_reviewCount after = 2
      /\ p_lapseCount after = 0
      /\ p_solvedCount after = 2.
Proof.
  intros clock userId cardId d n Hfind Huser Hcard.
  pose (p0 := initialProgress (nextId d) userId cardId (clock n)).
  pose (r1 := run (calculateReview clock DEFAULT_CONFIG NEW 1 2.5 0 good 0) (S (S n))).
  pose (p1 := reviewUpdate r1 (addMinutes (clock (S (S n))) 10) (clock (S n)) p0).
  assert (H1 : reviewedRow clock good (S n) p0 = Some p1) by reflexivity.
  pose (r2 := run (calculateReview clock DEFAULT_CONFIG LEARNING 10 2.5 1 good
                     (daysLateAt (clock (7 + n)%nat) p1)) (S (7 + n))).
  pose (p2 := reviewUpdate r2 (addDays (clock (S (7 + n))) 1) (clock (7 + n)%nat) p1).
  assert (H2 : reviewedRow clock good (7 + n) p1 = Some p2) by reflexivity.
  exists (putProgress (putProgress (afterCreate d userId cardId p0) userId cardId p1)
            userId cardId p2), p2.
  unfold run.
  rewrite (reviewAll_first_step _ _ _ _ _ _ _ _ Hfind Huser Hcard H1).
  rewrite (reviewAll_step _ _ _ _ _ _ _ _ _ (findUnique_putProgress _ _ _ _) H2).
  split; [reflexivity|]. split; [apply findUnique_putProgress|].
  repeat split.
Qed.

Lemma two_good_answers_graduate_witness :
  exists (d' : Db) (after : UserTheoryProgress),
    run (reviewAll tickingClock 7 "card-1" [good; good] freshDb) 0%nat = (Ok tt, d')
    /\ findUnique d' 7 "card-1" = Some after
    /\ p_cardState after = REVIEW
    /\ p_interval after = 1
    /\ p_dueDate after = Some (tickingClock (8 + 0)%nat + 86400000)
    /\ p_easeFactor after = 2.5%Q
    /\ p_learningStep after = 0
    /\ p_reviewCount after = 2
    /\ p_lapseCount after = 0
    /\ p_solvedCount after = 2.
Proof.
  apply (two_good_answers_graduate tickingClock 7 "card-1"%string freshDb 0%nat).
  - reflexivity.
  - vm_compute. reflexivity.
  - reflexivity.
Defined.

(** X14. [resetCard] either fails on the foreign keys, when there is no row
    and the user or the card is missing, and then writes nothing; or it
    leaves under [(userId, cardId)] the row of a never-reviewed card (NEW,
    interval 1, ease factor 2.5, step 0, all counters 0, no due date and no
    last review date), keeps the [id] and [createdAt] of a row that was
    there, leaves the rows under the other keys alone, and makes the
    service's [getNextReviewOptions] answer as for a card without progress. *)
Theorem reset_restores_new_card :
  forall (clock : nat -> Z) (userId : Z) (cardId : string) (d : Db) (n : nat),
    match run (resetCard clock userId cardId d) n with
    | (Ok _, d') =>
        exists after : UserTheoryProgress,
          findUnique d' userId cardId = Some after
          /\ p_cardState after = NEW
          /\ p_interval after = 1
          /\ p_easeFactor after = 2.5%Q
          /\ p_learningStep after = 0
          /\ p_dueDate after = None
          /\ p_lastReviewDate after = None
          /\ p_reviewCount after = 0
          /\ p_lapseCount after = 0
          /\ p_solvedCount after = 0
          /\ (forall p, findUnique d userId cardId = Some p ->
                        p_id after = p_id p /\ p_createdAt after = p_createdAt p)
          /\ (forall key : Z * string,
                key <> (userId, cardId) ->
                progressEntries d' !! key = progressEntries d !! key)
          /\ (forall m m' : nat,
                run (Service.getNextReviewOptions clock userId cardId d') m
                = run (getNextReviewOptions clock DEFAULT_CONFIG NEW 1 2.5 0 0) m')
    | (Throw e, d') =>
        e = ForeignKeyViolation
        /\ d' = d
        /\ findUnique d userId cardId = None
        /\ (userId ∉ users d \/ cardExists d cardId = false)
    end.
Proof.
  intros clock userId cardId d n.
  unfold run, resetCard, bind, newDate.
  destruct (findUnique d userId cardId) as [p|] eqn:Hfind.
  - cbn [ret fst]. eexists. split; [apply findUnique_putProgress|].
    repeat split.
    + injection H as <-. reflexivity.
    + injection H as <-. reflexivity.
    + intros key Hkey. simpl. apply lookup_insert_ne. congruence.
    + intros m m'. unfold run, Service.getNextReviewOptions.
      rewrite findUnique_putProgress. unfold bind, newDate. cbn [p_dueDate resetUpdate].
      apply getNextReviewOptions_clock_free.
  - unfold createProgress.
    destruct (bool_decide (userId ∈ users d)) eqn:Huser;
      destruct (cardExists d cardId) eqn:Hcard; cbn [andb bind ret newDate fst].
    + eexists. split; [unfold findUnique; simpl; apply lookup_insert_eq|].
      repeat split.
      * discriminate.
      * discriminate.
      * intros key Hkey. simpl. apply lookup_insert_ne. congruence.
      * intros m m'. unfold run, Service.getNextReviewOptions, findUnique. simpl.
        rewrite lookup_insert_eq. reflexivity.
    + repeat split. right. reflexivity.
    + repeat split. left. exact (proj1 (bool_decide_eq_false _) Huser).
    + repeat split. right. reflexivity.
Qed.

(** ** Further properties of the due-card selection *)

Lemma insertByPriority_sorted (x : DueCard) (l : list DueCard) :
  StronglySorted priorityOrder l -> StronglySorted priorityOrder (insertByPriority x l).
Proof.
  induction l as [|y l IH]; intro Hsorted; simpl.
  - repeat constructor.
  - inversion Hsorted as [|? ? Hl Hall]; subst.
    destruct (Qlt_le_dec (dc_priority x) (dc_priority y)) as [Hlt|Hle].
    + constructor; [apply IH; exact Hl|].
      apply List.Forall_forall. intros z Hz.
      apply In_insertByPriority in Hz. destruct Hz as [->|Hz].
      * unfold priorityOrder. apply Qlt_le_weak. exact Hlt.
      * exact (proj1 (List.Forall_forall _ _) Hall z Hz).
    + constructor; [exact Hsorted|].
      constructor; [exact Hle|].
      apply List.Forall_forall. intros z Hz.
      pose proof (proj1 (List.Forall_forall _ _) Hall z Hz) as Hzy.
      unfold priorityOrder in *. eapply Qle_trans; eassumption.
Qed.

Lemma sortByPriority_sorted (l : list DueCard) :
  StronglySorted priorityOrder (sortByPriority l).
Proof.
  unfold sortByPriority. induction l as [|x l IH]; simpl.
  - constructor.
  - apply insertByPriority_sorted. exact IH.
Qed.

Lemma take_sorted (k : nat) (l : list DueCard) :
  StronglySorted priorityOrder l -> StronglySorted priorityOrder (take k l).
Proof.
  revert l. induction k as [|k IH]; intros [|x l] Hsorted; simpl; try constructor.
  - apply IH. inversion Hsorted; assumption.
  - inversion Hsorted as [|? ? _ Hall]; subst.
    apply List.Forall_forall. intros z Hz. apply In_take in Hz.
    exact (proj1 (List.Forall_forall _ _) Hall z Hz).
Qed.

Lemma due_queue_length clock userId limit includeNew includeLearning includeReview d n :
  (length (run (getDueCards clock userId limit includeNew includeLearning includeReview d) n)
   <= limit)%nat.
Proof.
  unfold run, getDueCards, bind, ret, newDate.
  match goal with
  | |- context [processCards ?c ?now ?iN ?sf ?cd ?acc ?k] =>
      destruct (processCards c now iN sf cd acc k) as [processedCards k1]
  end.
  simpl. rewrite length_take. lia.
Qed.

(** X15. The queue has at most [limit] entries and is sorted by priority,
    highest first: every entry has a priority at least that of every entry
    after it. *)
Theorem due_queue_sorted_and_bounded :
  forall (clock : nat -> Z) (userId : Z) (limit : nat)
         (includeNew includeLearning includeReview : bool) (d : Db) (n : nat),
    let queue :=
      run (getDueCards clock userId limit includeNew includeLearning includeReview d) n in
    (length queue <= limit)%nat
    /\ StronglySorted priorityOrder queue.
Proof.
  intros clock userId limit includeNew includeLearning includeReview d n queue.
  subst queue. unfold run, getDueCards, bind, ret, newDate.
  match goal with
  | |- context [processCards ?c ?now ?iN ?sf ?cd ?acc ?k] =>
      destruct (processCards c now iN sf cd acc k) as [processedCards k1]
  end.
  simpl. split.
  - rewrite length_take. lia.
  - apply take_sorted. apply sortByPriority_sorted.
Qed.

Lemma includes_requested (includeNew includeLearning includeReview : bool) (s : CardState) :
  includes ((if includeNew then [NEW] else [])
            ++ (if includeLearning then [LEARNING; RELEARNING] else [])
            ++ (if includeReview then [REVIEW] else [])) s
  = requested includeNew includeLearning includeReview s.
Proof.
  destruct includeNew, includeLearning, includeReview, s; reflexivity.
Qed.

Lemma notYetDue_false (now due : Z) (p : UserTheoryProgress) :
  notYetDue now p = false ->
  p_dueDate p = Some due ->
  p_cardState p <> NEW ->
  due <= now.
Proof.
  unfold notYetDue. intros Hgate Hdue Hstate. rewrite Hdue in Hgate.
  rewrite floorDays_negative in Hgate.
  destruct (p_cardState p); try contradiction; simpl in Hgate;
    rewrite ?orb_false_r in Hgate; apply Z.ltb_ge in Hgate; exact Hgate.
Qed.

(** What one iteration of the loop pushes. *)
Lemma processCard_pushed clock now includeNew stateFilter card entries m dueCard :
  fst (processCard clock now includeNew stateFilter card entries m) = Some dueCard ->
  dc_card dueCard = card
  /\ match head entries with
     | None => includeNew = true /\ dueCard = newCardEntry card
     | Some p =>
         includes stateFilter (p_cardState p) = true
         /\ notYetDue now p = false
         /\ dc_cardState dueCard = p_cardState p
         /\ dc_dueDate dueCard = p_dueDate p
         /\ dc_interval dueCard = p_interval p
         /\ dc_easeFactor dueCard = p_easeFactor p
         /\ dc_reviewCount dueCard = p_reviewCount p
         /\ dc_lapseCount dueCard = p_lapseCount p
     end.
Proof.
  unfold processCard. destruct (head entries) as [p|].
  - destruct (includes stateFilter (p_cardState p)) eqn:Hinc; simpl; [|discriminate].
    destruct (notYetDue now p) eqn:Hgate; [discriminate|].
    unfold bind, ret.
    destruct (calculatePriority clock DEFAULT_CONFIG (p_dueDate p) (p_easeFactor p)
                (p_lapseCount p) (p_cardState p) m) as [priority m1].
    simpl. intro Hpush. injection Hpush as <-. simpl. repeat split.
  - destruct includeNew; [|discriminate].
    unfold bind, ret. simpl. intro Hpush. injection Hpush as <-.
    repeat split.
Qed.

Lemma In_findManyWithProgress d userId k card entries :
  In (card, entries) (findManyWithProgress d userId k) ->
  In card (take k (theoryCards d))
  /\ head entries = findUnique d userId (card_id card).
Proof.
  unfold findManyWithProgress. rewrite firstn_map. intro Hin.
  apply in_map_iff in Hin. destruct Hin as [card' [Heq Hin]].
  injection Heq as -> <-. split; [exact Hin|].
  unfold findUnique. destruct (progressEntries d !! (userId, card_id card)); reflexivity.
Qed.

(** The facts about one entry of the queue. *)
Lemma due_queue_entry :
  forall (clock : nat -> Z) (userId : Z) (limit : nat)
         (includeNew includeLearning includeReview : bool) (d : Db) (n : nat)
         (dueCard : DueCard),
    In dueCard
       (run (getDueCards clock userId limit includeNew includeLearning includeReview d) n) ->
    In (dc_card dueCard) (take (limit * 2) (theoryCards d))
    /\ requested includeNew includeLearning includeReview (dc_cardState dueCard) = true
    /\ match findUnique d userId (card_id (dc_card dueCard)) with
       | None => dueCard = newCardEntry (dc_card dueCard)
       | Some p =>
           dc_cardState dueCard = p_cardState p
           /\ dc_dueDate dueCard = p_dueDate p
           /\ dc_interval dueCard = p_interval p
           /\ dc_easeFactor dueCard = p_easeFactor p
           /\ dc_reviewCount dueCard = p_reviewCount p
           /\ dc_lapseCount dueCard = p_lapseCount p
           /\ (forall due, p_dueDate p = Some due -> p_cardState p <> NEW -> due <= clock n)
       end.
Proof.
  intros clock userId limit includeNew includeLearning includeReview d n dueCard Hin.
  unfold run, getDueCards, bind, ret, newDate in Hin.
  match type of Hin with
  | context [processCards ?c ?now ?iN ?sf ?cd ?acc ?k] =>
      destruct (processCards c now iN sf cd acc k) as [processedCards k1] eqn:Hloop
  end.
  simpl in Hin. apply In_take in Hin. apply (proj1 (In_sortByPriority _ _)) in Hin.
  change processedCards with (fst (processedCards, k1)) in Hin.
  rewrite <- Hloop in Hin.
  destruct (In_processCards _ _ _ _ _ _ _ _ Hin) as [[]|[card [entries [m [Hmem Hpush]]]]].
  apply In_findManyWithProgress in Hmem. destruct Hmem as [Hcat Hhead].
  apply processCard_pushed in Hpush. destruct Hpush as [Hcard Hpush].
  rewrite Hcard, <- Hhead.
  destruct (head entries) as [p|].
  - destruct Hpush as (Hinc & Hgate & Hst & Hdue & Hiv & Hef & Hrc & Hlc).
    rewrite includes_requested in Hinc.
    split; [exact Hcat|]. split; [rewrite Hst; exact Hinc|].
    repeat split; try assumption.
    intros due Hd Hnew. exact (notYetDue_false _ _ _ Hgate Hd Hnew).
  - destruct Hpush as [Hnew ->]. simpl.
    split; [exact Hcat|]. split; [exact Hnew|reflexivity].
Qed.

(** X16. Every entry of the queue comes from one of the first [2 * limit]
    cards of the catalogue and is in a requested state.  For a card without
    progress it is the NEW entry with priority 0; for a card with a row it
    carries the row's state, due date, interval, ease factor and counters,
    and unless the row is NEW its due date, when it has one, is not ahead of
    the moment the selection started. *)
Theorem due_queue_entries_are_requested_and_due :
  forall (clock : nat -> Z) (userId : Z) (limit : nat)
         (includeNew includeLearning includeReview : bool) (d : Db) (n : nat)
         (dueCard : DueCard),
    In dueCard
       (run (getDueCards clock userId limit includeNew includeLearning includeReview d) n) ->
    In (dc_card dueCard) (take (limit * 2) (theoryCards d))
    /\ requested includeNew includeLearning includeReview (dc_cardState dueCard) = true
    /\ match findUnique d userId (card_id (dc_card dueCard)) with
       | None => dueCard = newCardEntry (dc_card dueCard)
       | Some p =>
           dc_cardState dueCard = p_cardState p
           /\ dc_dueDate dueCard = p_dueDate p
           /\ dc_interval dueCard = p_interval p
           /\ dc_easeFactor dueCard = p_easeFactor p
           /\ dc_reviewCount dueCard = p_reviewCount p
           /\ dc_lapseCount dueCard = p_lapseCount p
           /\ (forall due, p_dueDate p = Some due -> p_cardState p <> NEW -> due <= clock n)
       end.
Proof.
  exact due_queue_entry.
Qed.

Lemma due_queue_entries_are_requested_and_due_witness :
  In sampleCard (take (20 * 2) (theoryCards (sampleDb anHourAgo)))
  /\ requested true true true REVIEW = true.
Proof.
  destruct (due_queue_entries_are_requested_and_due tickingClock 7 20%nat true true true
              (sampleDb anHourAgo) 0%nat
              {| dc_card := sampleCard;
                 dc_dueDate := Some anHourAgo;
                 dc_cardState := REVIEW;
                 dc_interval := 1;
                 dc_easeFactor := 2.5;
                 dc_reviewCount := 3;
                 dc_lapseCount := 0;
                 dc_isOverdue := true;
                 dc_daysSinceLastReview := Some 1;
                 dc_priority :=
                   run (calculatePriority tickingClock DEFAULT_CONFIG (Some anHourAgo)
                          2.5 0 REVIEW) 1%nat |})
    as [Hcat [Hreq _]].
  - vm_compute. left. reflexivity.
  - split; [exact Hcat|exact Hreq].
Defined.

Lemma processCards_without_progress clock now includeNew stateFilter
    (cards : list TheoryCard) :
  forall (processedCards : list DueCard) (k : nat),
    processCards clock now includeNew stateFilter
      (map (fun card => (card, [])) cards) processedCards k
    = (processedCards ++ (if includeNew then map newCardEntry cards else []), k).
Proof.
  induction cards as [|card cards IH]; intros processedCards k; simpl.
  - destruct includeNew; rewrite app_nil_r; reflexivity.
  - unfold bind, processCard. simpl. destruct includeNew; simpl.
    + rewrite IH. rewrite <- app_assoc. reflexivity.
    + rewrite IH. reflexivity.
Qed.

Lemma sortByPriority_new_entries (cards : list TheoryCard) :
  sortByPriority (map newCardEntry cards) = map newCardEntry cards.
Proof.
  unfold sortByPriority. induction cards as [|card cards IH]; simpl; [reflexivity|].
  rewrite IH. destruct cards as [|card' cards]; simpl; [reflexivity|].
  destruct (Qlt_le_dec 0 0) as [Hlt|_]; [|reflexivity].
  exfalso. exact (Qlt_irrefl 0 Hlt).
Qed.

(** X17. For a learner without any progress row on the catalogue, the
    queue is the first [limit] cards of the catalogue, in catalogue order,
    each as a NEW entry with priority 0, when new cards are asked for, and
    is empty when they are not. *)
Theorem new_learner_queue_is_catalogue_order :
  forall (clock : nat -> Z) (userId : Z) (limit : nat)
         (includeNew includeLearning includeReview : bool) (d : Db) (n : nat),
    (forall card, In card (theoryCards d) -> findUnique d userId (card_id card) = None) ->
    run (getDueCards clock userId limit includeNew includeLearning includeReview d) n
    = if includeNew then map newCardEntry (take limit (theoryCards d)) else [].
Proof.
  intros clock userId limit includeNew includeLearning includeReview d n Hnone.
  unfold run, getDueCards, bind, ret, newDate.
  assert (Hfetch : findManyWithProgress d userId (limit * 2)
                   = map (fun card => (card, [])) (take (limit * 2) (theoryCards d))).
  { unfold findManyWithProgress. rewrite firstn_map. apply map_ext_in.
    intros card Hin. apply In_take in Hin. specialize (Hnone card Hin).
    unfold findUnique in Hnone. rewrite Hnone. reflexivity. }
  rewrite Hfetch, processCards_without_progress. simpl.
  destruct includeNew; [|destruct limit; reflexivity].
  rewrite sortByPriority_new_entries, <- firstn_map, firstn_firstn.
  replace (Nat.min limit (limit * 2)) with limit by lia.
  apply firstn_map.
Qed.

Lemma new_learner_queue_is_catalogue_order_witness :
  run (getDueCards tickingClock 7 20 true false false freshDb) 0%nat
  = map newCardEntry (take 20 (theoryCards freshDb)).
Proof.
  apply (new_learner_queue_is_catalogue_order tickingClock 7 20%nat true false false
           freshDb 0%nat).
  intros card Hin. reflexivity.
Defined.

(** ** Properties of the read-only operations *)

Lemma countInState_nonneg rows s : 0 <= countInState rows s.
Proof. unfold countInState. lia. Qed.

Lemma countInState_total (rows : list UserTheoryProgress) :
  countInState rows NEW + countInState rows LEARNING
  + countInState rows REVIEW + countInState rows RELEARNING
  = Z.of_nat (length rows).
Proof.
  unfold countInState. induction rows as [|p rows IH]; [reflexivity|].
  simpl. destruct (p_cardState p); simpl; lia.
Qed.

(** X18. [getCardCounts] reports, for the rows of the user: as [learning]
    the rows in LEARNING or RELEARNING, as [review] the rows in REVIEW, as
    [new] the rows in NEW plus the cards of the catalogue beyond the number
    of rows, and as [total] the size of the catalogue; the three counts
    always add up to [total]. *)
Theorem card_counts_partition_catalogue :
  forall (clock : nat -> Z) (userId : Z) (d : Db) (n : nat),
    let counts := run (Service.getCardCounts clock userId d) n in
    let rows := rowsOfUser d userId in
    cc_total counts = Z.of_nat (length (theoryCards d))
    /\ cc_learning counts = countInState rows LEARNING + countInState rows RELEARNING
    /\ cc_review counts = countInState rows REVIEW
    /\ cc_new counts
       = countInState rows NEW
         + (Z.of_nat (length (theoryCards d)) - Z.of_nat (length rows))
    /\ cc_new counts + cc_learning counts + cc_review counts = cc_total counts.
Proof.
  intros clock userId d n counts rows. subst counts.
  pose proof (countInState_total rows) as Htotal.
  pose proof (countInState_nonneg rows NEW) as Hn.
  pose proof (countInState_nonneg rows LEARNING) as Hl.
  pose proof (countInState_nonneg rows REVIEW) as Hr.
  pose proof (countInState_nonneg rows RELEARNING) as Hrl.
  unfold run, Service.getCardCounts, bind, ret, newDate, groupByCardState.
  fold rows. cbn [map List.filter snd].
  destruct (Z.ltb_spec 0 (countInState rows NEW));
    destruct (Z.ltb_spec 0 (countInState rows LEARNING));
    destruct (Z.ltb_spec 0 (countInState rows REVIEW));
    destruct (Z.ltb_spec 0 (countInState rows RELEARNING));
    cbn; repeat split; lia.
Qed.

(** The quotient [(reviews - lapses) / reviews * 100] is at most 100 when
    there is a review and no negative lapse count. *)
Lemma retention_at_most_100 (reviews lapses : Z) :
  0 < reviews -> 0 <= lapses ->
  (inject_Z (reviews - lapses) / inject_Z reviews * 100 <= 100)%Q.
Proof.
  intros Hr Hl.
  assert (Hpos : (0 < inject_Z reviews)%Q).
  { change 0%Q with (inject_Z 0). rewrite <- Zlt_Qlt. exact Hr. }
  assert (Hq : (inject_Z (reviews - lapses) / inject_Z reviews <= 1)%Q).
  { apply Qle_shift_div_r; [exact Hpos|].
    rewrite Qmult_1_l. apply inject_Z_le. lia. }
  lra.
Qed.

(** X19. [getCardStats] answers [null] exactly for a card without a row.
    Otherwise it reports the row's counters, state and dates, no average
    response time, and a retention rate that is never negative, is 0 before
    the first review, and is at most 100 when the lapse count is not
    negative; with at least one review and no more lapses than reviews it is
    the share of reviews that were not lapses, in percent. *)
Theorem card_stats_retention_is_a_percentage :
  forall (clock : nat -> Z) (userId : Z) (cardId : string) (d : Db) (n : nat),
    match run (Service.getCardStats clock userId cardId d) n with
    | None => findUnique d userId cardId = None
    | Some stats =>
        exists p : UserTheoryProgress,
          findUnique d userId cardId = Some p
          /\ cs_totalReviews stats = p_reviewCount p
          /\ cs_lapseCount stats = p_lapseCount p
          /\ cs_cardState stats = p_cardState p
          /\ cs_dueDate stats = p_dueDate p
          /\ cs_averageResponseTime stats = None
          /\ (0 <= cs_retentionRate stats)%Q
          /\ (p_reviewCount p <= 0 -> cs_retentionRate stats = 0%Q)
          /\ (0 <= p_lapseCount p -> (cs_retentionRate stats <= 100)%Q)
          /\ (0 < p_reviewCount p -> p_lapseCount p <= p_reviewCount p ->
              (cs_retentionRate stats
               == inject_Z (p_reviewCount p - p_lapseCount p)
                  / inject_Z (p_reviewCount p) * 100)%Q)
    end.
Proof.
  intros clock userId cardId d n.
  unfold run, Service.getCardStats, bind, ret.
  destruct (findUnique d userId cardId) as [p|]; [|reflexivity].
  destruct (getNextReviewOptions clock DEFAULT_CONFIG (p_cardState p) (p_interval p)
              (p_easeFactor p) (p_learningStep p) 0 n) as [options n1].
  cbn [fst cs_totalReviews cs_lapseCount cs_cardState cs_dueDate cs_averageResponseTime
       cs_retentionRate].
  exists p. repeat split.
  - destruct (0 <? p_reviewCount p); [apply Q.le_max_l|apply Qle_refl].
  - intro Hzero. destruct (Z.ltb_spec 0 (p_reviewCount p)); [lia|reflexivity].
  - intro Hlapse. destruct (Z.ltb_spec 0 (p_reviewCount p)) as [Hpos|_].
    + apply Q.max_lub; [lra|]. apply retention_at_most_100; assumption.
    + lra.
  - intros Hpos Hle. destruct (Z.ltb_spec 0 (p_reviewCount p)) as [_|Hneg]; [|lia].
    apply Q.max_r.
    assert (Hden : (0 < inject_Z (p_reviewCount p))%Q).
    { change 0%Q with (inject_Z 0). rewrite <- Zlt_Qlt. exact Hpos. }
    assert (Hnum : (0 <= inject_Z (p_reviewCount p - p_lapseCount p))%Q).
    { change 0%Q with (inject_Z 0). apply inject_Z_le. lia. }
    assert (Hq : (0 <= inject_Z (p_reviewCount p - p_lapseCount p)
                       / inject_Z (p_reviewCount p))%Q).
    { apply Qle_shift_div_l; [exact Hden|]. lra. }
    lra.
Qed.

(** X20. A card with a due date whose ease factor does not exceed
    [maxEaseFactor] and whose lapse count is not negative never has a
    negative priority, and has a priority of at least 100 while it is in
    LEARNING or RELEARNING. *)
Theorem priority_lower_bound :
  forall (clock : nat -> Z) (config : SpacedRepetitionConfig)
         (dueDate : Z) (easeFactor : Q) (lapseCount : Z) (state : CardState) (n : nat),
    (easeFactor <= maxEaseFactor config)%Q ->
    0 <= lapseCount ->
    ((if isLearningState state then 100 else 0)
     <= run (calculatePriority clock config (Some dueDate) easeFactor lapseCount state) n)%Q.
Proof.
  intros clock config dueDate easeFactor lapseCount state n Hease Hlapse.
  unfold run, calculatePriority, bind, ret, newDate. cbn [fst].
  assert (Hd : (0 <= inject_Z (daysOverdue (clock n) dueDate))%Q).
  { change 0%Q with (inject_Z 0). apply inject_Z_le. unfold daysOverdue. lia. }
  assert (Hl : (0 <= inject_Z lapseCount)%Q).
  { change 0%Q with (inject_Z 0). apply inject_Z_le. exact Hlapse. }
  destruct state; cbn [isLearningState CardState_eqb orb]; lra.
Qed.

Lemma priority_lower_bound_witness :
  (100 <= run (calculatePriority tickingClock DEFAULT_CONFIG (Some anHourAgo) 2.3 1
                 RELEARNING) 0%nat)%Q.
Proof.
  apply (priority_lower_bound tickingClock DEFAULT_CONFIG anHourAgo 2.3 1 RELEARNING 0%nat).
  - simpl. lra.
  - lia.
Defined.

(** ** Properties of the progress routes *)

Lemma attachUserRole_guest roleOf d sessionUserId :
  attachUserRole roleOf d sessionUserId = GUEST
  <-> (forall userId, sessionUserId = Some userId ->
         userId = 0 \/ userId ∉ users d \/ roleOf userId = GUEST).
Proof.
  unfold attachUserRole. destruct sessionUserId as [u|].
  - destruct (Z.eqb_spec u 0) as [Hz|Hnz].
    + split; [intros _ v Hv; injection Hv as <-; left; exact Hz|reflexivity].
    + destruct (bool_decide (u ∈ users d)) eqn:Hu.
      * apply bool_decide_eq_true in Hu. split.
        -- intros Hrole v Hv. injection Hv as <-. right. right. exact Hrole.
        -- intro H. destruct (H u eq_refl) as [Hz|[Hn|Hr]];
             [contradiction|contradiction|exact Hr].
      * split; [|reflexivity]. intros _ v Hv. injection Hv as <-.
        right. left. exact (proj1 (bool_decide_eq_false _) Hu).
  - split; [intros _ v Hv; discriminate|reflexivity].
Qed.

Lemma authorized_guest roleOf d sessionUserId message handler n :
  attachUserRole roleOf d sessionUserId = GUEST ->
  authorized roleOf d sessionUserId message handler n
  = (({| status := 401; body := Message message |}, d), n).
Proof.
  intro Hguest. unfold authorized. rewrite Hguest.
  destruct sessionUserId; reflexivity.
Qed.

Lemma authorized_user roleOf d userId message handler :
  attachUserRole roleOf d (Some userId) <> GUEST ->
  authorized roleOf d (Some userId) message handler = handler userId
  /\ userId <> 0
  /\ userId ∈ users d.
Proof.
  intro Hrole. unfold authorized.
  unfold attachUserRole in *.
  destruct (Z.eqb_spec userId 0) as [Hz|Hnz]; [contradiction|].
  destruct (bool_decide (userId ∈ users d)) eqn:Hu; [|contradiction].
  apply bool_decide_eq_true in Hu.
  destruct (roleOf userId); try contradiction; simpl; repeat split; assumption.
Qed.

(** X21. A request without a session user, with the user id 0, from a user
    that is not in the database or from a user whose role is GUEST is
    answered 401 by each of the six progress routes, before the clock is
    read and without any write. *)
Theorem guests_are_refused_before_any_effect :
  forall (clock : nat -> Z) (roleOf : Z -> UserRole) (messageOf : PrismaError -> string)
         (sessionUserId : option Z) (cardId : string) (limitNum : option Z)
         (includeNew includeLearning includeReview : string)
         (rating action : option string) (d : Db) (n : nat),
    (forall userId, sessionUserId = Some userId ->
       userId = 0 \/ userId ∉ users d \/ roleOf userId = GUEST) ->
    let refused (result : Reply * Db * nat) :=
      status (fst (fst result)) = 401 /\ snd (fst result) = d /\ snd result = n in
    refused (dueCardsRoute clock roleOf sessionUserId limitNum
               includeNew includeLearning includeReview d n)
    /\ refused (reviewRoute clock roleOf messageOf sessionUserId cardId rating d n)
    /\ refused (resetRoute clock roleOf sessionUserId cardId d n)
    /\ refused (intervalsRoute clock roleOf sessionUserId cardId d n)
    /\ refused (statsRoute clock roleOf sessionUserId d n)
    /\ refused (progressRoute clock roleOf sessionUserId cardId action d n).
Proof.
  intros clock roleOf messageOf sessionUserId cardId limitNum
         includeNew includeLearning includeReview rating action d n Hguest refused.
  apply attachUserRole_guest in Hguest. subst refused.
  unfold dueCardsRoute, reviewRoute, resetRoute, intervalsRoute, statsRoute, progressRoute.
  rewrite !(authorized_guest roleOf d sessionUserId _ _ n Hguest).
  repeat split.
Qed.

Lemma guests_are_refused_before_any_effect_witness :
  status (fst (fst (reviewRoute tickingClock sampleRoleOf sampleMessageOf (Some 8) "card-1"
                      (Some "good"%string) freshDb 0%nat))) = 401
  /\ snd (fst (reviewRoute tickingClock sampleRoleOf sampleMessageOf (Some 8) "card-1"
                 (Some "good"%string) freshDb 0%nat)) = freshDb
  /\ snd (reviewRoute tickingClock sampleRoleOf sampleMessageOf (Some 8) "card-1"
            (Some "good"%string) freshDb 0%nat) = 0%nat.
Proof.
  refine (proj1 (proj2 (guests_are_refused_before_any_effect tickingClock sampleRoleOf
                          sampleMessageOf (Some 8) "card-1"%string (Some 20)
                          "true"%string "true"%string "true"%string
                          (Some "good"%string) None freshDb 0%nat _))).
  intros userId Huser. injection Huser as <-. right. left.
  vm_compute. discriminate.
Defined.

(** X22. For an authenticated user, [GET /cards/due] answers 200 exactly
    when the parsed limit is a number from 1 to 100 and 400 otherwise; on
    200 the body is the queue of [getDueCards] for that limit and the three
    flags, so it never has more than 100 entries; the route never writes. *)
Theorem due_route_bounds_the_limit :
  forall (clock : nat -> Z) (roleOf : Z -> UserRole) (userId : Z) (limitNum : option Z)
         (includeNew includeLearning includeReview : string) (d : Db) (n : nat),
    attachUserRole roleOf d (Some userId) <> GUEST ->
    let reply :=
      fst (run (dueCardsRoute clock roleOf (Some userId) limitNum
                  includeNew includeLearning includeReview d) n) in
    snd (run (dueCardsRoute clock roleOf (Some userId) limitNum
                includeNew includeLearning includeReview d) n) = d
    /\ match limitNum with
       | Some limit =>
           if (1 <=? limit) && (limit <=? 100) then
             status reply = 200
             /\ body reply
                = DueCardsBody
                    (run (getDueCards clock userId (Z.to_nat limit)
                            (String.eqb includeNew "true")
                            (String.eqb includeLearning "true")
                            (String.eqb includeReview "true") d) n)
           else status reply = 400
       | None => status reply = 400
       end
    /\ (forall dueCards, body reply = DueCardsBody dueCards ->
                         (length dueCards <= 100)%nat).
Proof.
  intros clock roleOf userId limitNum includeNew includeLearning includeReview d n Hrole
         reply.
  subst reply. unfold run, dueCardsRoute.
  destruct (authorized_user roleOf d userId
              "Требуется авторизация для получения карточек к повторению"
              (fun userId =>
                 match limitNum with
                 | None =>
                     ret ({| status := 400;
                             body := Message "Limit must be a number between 1 and 100" |}, d)
                 | Some limit =>
                     if (limit <? 1) || (100 <? limit) then
                       ret ({| status := 400;
                               body := Message "Limit must be a number between 1 and 100" |},
                            d)
                     else
                       dueCards <- getDueCards clock userId (Z.to_nat limit)
                                     (String.eqb includeNew "true")
                                     (String.eqb includeLearning "true")
                                     (String.eqb includeReview "true") d ;;
                       ret ({| status := 200; body := DueCardsBody dueCards |}, d)
                 end) Hrole) as [-> _].
  destruct limitNum as [limit|]; [|repeat split; intros q Hq; discriminate Hq].
  destruct (Z.ltb_spec limit 1) as [Hlow|Hlow];
    destruct (Z.ltb_spec 100 limit) as [Hhigh|Hhigh];
    destruct (Z.leb_spec 1 limit); destruct (Z.leb_spec limit 100); try lia;
    cbn [orb andb]; try (repeat split; intros q Hq; discriminate Hq).
  unfold bind, ret.
  pose proof (due_queue_length clock userId (Z.to_nat limit)
                (String.eqb includeNew "true") (String.eqb includeLearning "true")
                (String.eqb includeReview "true") d n) as Hlen.
  unfold run in Hlen.
  destruct (getDueCards clock userId (Z.to_nat limit) (String.eqb includeNew "true")
              (String.eqb includeLearning "true") (String.eqb includeReview "true") d n)
    as [queue n1].
  cbn [fst snd status body] in *. repeat split.
  intros q Hq. injection Hq as <-. lia.
Qed.

Lemma due_route_bounds_the_limit_witness :
  status (fst (run (dueCardsRoute tickingClock sampleRoleOf (Some 7) (Some 101)
                      "true" "true" "true" freshDb) 0%nat)) = 400.
Proof.
  refine (proj1 (proj2 (due_route_bounds_the_limit tickingClock sampleRoleOf 7 (Some 101)
                          "true"%string "true"%string "true"%string freshDb 0%nat _))).
  vm_compute. discriminate.
Defined.



(** X24. [POST /cards/:cardId/reset] for an authenticated user answers 404
    without writing or reading the clock when the card does not exist, and
    otherwise always 200, leaving under [(userId, cardId)] a NEW row with
    interval 1, ease factor 2.5, no due date and all counters 0: it is never
    answered 500. *)
Theorem reset_route_outcomes :
  forall (clock : nat -> Z) (roleOf : Z -> UserRole) (userId : Z) (cardId : string)
         (d : Db) (n : nat),
    attachUserRole roleOf d (Some userId) <> GUEST ->
    let result := resetRoute clock roleOf (Some userId) cardId d n in
    if cardExists d cardId then
      status (fst (fst result)) = 200
      /\ exists after : UserTheoryProgress,
           findUnique (snd (fst result)) userId cardId = Some after
           /\ p_cardState after = NEW
           /\ p_interval after = 1
           /\ p_easeFactor after = 2.5%Q
           /\ p_dueDate after = None
           /\ p_reviewCount after = 0
           /\ p_lapseCount after = 0
           /\ p_solvedCount after = 0
    else
      status (fst (fst result)) = 404 /\ snd (fst result) = d /\ snd result = n.
Proof.
  intros clock roleOf userId cardId d n Hrole result.
  subst result. unfold resetRoute.
  match goal with
  | |- context [authorized roleOf d (Some userId) ?msg ?h] =>
      destruct (authorized_user roleOf d userId msg h Hrole) as [-> [Hnz Huser]]
  end.
  destruct (cardExists d cardId) eqn:Hcard; cbn [negb]; [|repeat split].
  unfold bind, resetCard, newDate.
  destruct (findUnique d userId cardId) as [p|] eqn:Hfind.
  - cbn. split; [reflexivity|]. eexists.
    split; [apply findUnique_putProgress|]. repeat split.
  - unfold bind, createProgress.
    rewrite (bool_decide_eq_true_2 _ Huser), Hcard.
    cbn. split; [reflexivity|]. eexists.
    split; [unfold findUnique; simpl; apply lookup_insert_eq|]. repeat split.
Qed.

Lemma reset_route_outcomes_witness :
  status (fst (fst (resetRoute tickingClock sampleRoleOf (Some 7) "card-2" freshDb 0%nat)))
  = 404
  /\ snd (fst (resetRoute tickingClock sampleRoleOf (Some 7) "card-2" freshDb 0%nat)) = freshDb
  /\ snd (resetRoute tickingClock sampleRoleOf (Some 7) "card-2" freshDb 0%nat) = 0%nat.
Proof.
  refine (reset_route_outcomes tickingClock sampleRoleOf 7 "card-2"%string freshDb 0%nat _).
  vm_compute. discriminate.
Defined.

(** X25. [PATCH /cards/:cardId/progress] for an authenticated user and an
    existing card: [increment] adds 1 to the row's [solvedCount] (creating
    the row with 1), [decrement] subtracts 1 only while the count is above
    0 (creating the row with 0), so a count that is not negative never
    becomes negative; the answer is 200 with the new count, and the row's
    scheduling columns (state, interval, ease factor, step, due date and
    both review counters) are those it had, or the NEW defaults for a row
    the route created. *)
Theorem progress_route_counts_without_rescheduling :
  forall (clock : nat -> Z) (roleOf : Z -> UserRole) (userId : Z) (cardId : string)
         (increment : bool) (d : Db) (n : nat),
    attachUserRole roleOf d (Some userId) <> GUEST ->
    cardExists d cardId = true ->
    let result :=
      progressRoute clock roleOf (Some userId) cardId
        (Some (if increment then "increment" else "decrement")%string) d n in
    let before :=
      match findUnique d userId cardId with
      | Some p => p
      | None => initialProgress (nextId d) userId cardId (clock n)
      end in
    exists after : UserTheoryProgress,
      findUnique (snd (fst result)) userId cardId = Some after
      /\ fst (fst result)
         = {| status := 200;
              body := ProgressBody (p_userId after) (p_cardId after) (p_solvedCount after) |}
      /\ p_solvedCount after
         = (if increment then p_solvedCount before + 1
            else if 0 <? p_solvedCount before then p_solvedCount before - 1
                 else p_solvedCount before)
      /\ (0 <= p_solvedCount before -> 0 <= p_solvedCount after)
      /\ p_cardState after = p_cardState before
      /\ p_interval after = p_interval before
      /\ p_easeFactor after = p_easeFactor before
      /\ p_learningStep after = p_learningStep before
      /\ p_dueDate after = p_dueDate before
      /\ p_reviewCount after = p_reviewCount before
      /\ p_lapseCount after = p_lapseCount before.
Proof.
  intros clock roleOf userId cardId increment d n Hrole Hcard result before.
  subst result before. unfold progressRoute.
  match goal with
  | |- context [authorized roleOf d (Some userId) ?msg ?h] =>
      destruct (authorized_user roleOf d userId msg h Hrole) as [-> [Hnz Huser]]
  end.
  rewrite Hcard.
  destruct increment; cbn [String.eqb Ascii.eqb Bool.eqb orb negb andb].
  - unfold bind, upsertSolvedCount.
    destruct (findUnique d userId cardId) as [p|] eqn:Hfind.
    + unfold bind, ret, newDate. cbn. eexists.
      split; [apply findUnique_putProgress|].
      cbn. repeat split; lia.
    + rewrite (bool_decide_eq_true_2 _ Huser), Hcard.
      unfold bind, ret, newDate. cbn. eexists.
      split; [unfold findUnique; simpl; apply lookup_insert_eq|].
      cbn. repeat split; lia.
  - unfold bind, decrementSolved.
    destruct (findUnique d userId cardId) as [p|] eqn:Hfind.
    + destruct (Z.ltb_spec 0 (p_solvedCount p)) as [Hpos|Hzero].
      * unfold bind, ret, newDate, upsertSolvedCount.
        rewrite findUnique_putProgress. cbn. eexists.
        split; [apply findUnique_putProgress|].
        cbn. repeat split; lia.
      * unfold ret, upsertSolvedCount. rewrite Hfind. cbn. exists p.
        split; [exact Hfind|]. repeat split; try lia.
    + unfold ret, upsertSolvedCount. rewrite Hfind.
      rewrite (bool_decide_eq_true_2 _ Huser), Hcard.
      unfold bind, ret, newDate. cbn. eexists.
      split; [unfold findUnique; simpl; apply lookup_insert_eq|].
      cbn. repeat split; lia.
Qed.

Lemma progress_route_counts_without_rescheduling_witness :
  exists after : UserTheoryProgress,
    findUnique
      (snd (fst (progressRoute tickingClock sampleRoleOf (Some 7) "card-1"
                   (Some "decrement"%string) (sampleDb anHourAgo) 0%nat))) 7 "card-1"
    = Some after
    /\ p_solvedCount after = 2
    /\ p_cardState after = REVIEW
    /\ p_dueDate after = Some anHourAgo.
Proof.
  destruct (progress_route_counts_without_rescheduling tickingClock sampleRoleOf 7
              "card-1"%string false (sampleDb anHourAgo) 0%nat)
    as [after (Hfind & _ & Hsolved & _ & Hstate & _ & _ & _ & Hdue & _)].
  - vm_compute. discriminate.
  - reflexivity.
  - exists after. split; [exact Hfind|].
    split; [rewrite Hsolved; vm_compute; reflexivity|].
    split; [rewrite Hstate; vm_compute; reflexivity|].
    rewrite Hdue. vm_compute. reflexivity.
Defined.

(** ** How reviews and the queue compose *)

Lemma newCardState_not_NEW clock config state interval ease step rating daysLate n :
  newCardState (run (calculateReview clock config state interval ease step rating daysLate) n)
  <> NEW.
Proof.
  destruct state, rating; unfold_review; split_graduation; discriminate.
Qed.

Lemma reviewedRow_scheduled clock rating k p p' :
  reviewedRow clock rating k p = Some p' ->
  p_cardState p' <> NEW /\ exists due, p_dueDate p' = Some due.
Proof.
  unfold reviewedRow. intro Hrow.
  destruct (newDueDate _) as [due|] in Hrow; [|discriminate].
  simpl in Hrow. injection Hrow as <-. simpl.
  split; [apply newCardState_not_NEW|]. exists due. reflexivity.
Qed.

(** X26. A card that was just reviewed leaves the queue until it is due:
    after a successful review, no selection started before the due date
    that the review returned has an entry for that card, whatever the flags
    and the limit. *)
Theorem reviewed_card_leaves_queue_until_due :
  forall (clock : nat -> Z) (userId : Z) (cardId : string) (rating : Rating)
         (responseTime : option Z) (d : Db) (n : nat) (limit : nat)
         (includeNew includeLearning includeReview : bool) (m : nat) (dueCard : DueCard),
    match run (reviewCard clock userId cardId rating responseTime d) n with
    | (Ok resp, d') =>
        clock m < resp_newDueDate resp ->
        In dueCard
           (run (getDueCards clock userId limit includeNew includeLearning includeReview d') m) ->
        card_id (dc_card dueCard) <> cardId
    | (Throw _, _) => True
    end.
Proof.
  intros clock userId cardId rating responseTime d n limit
         includeNew includeLearning includeReview m dueCard.
  unfold run at 1. rewrite reviewCard_spec.
  destruct (startOfReview clock userId cardId d n) as [[[p d1] k]|]; [|exact I].
  destruct (reviewedRow clock rating k p) as [p'|] eqn:Hp'; [|exact I].
  cbn [fst responseOf resp_newDueDate].
  destruct (reviewedRow_scheduled clock rating k p p' Hp') as [Hnew [due Hdue]].
  rewrite Hdue. simpl. intros Hsoon Hin Hid.
  destruct (due_queue_entry clock userId limit includeNew includeLearning includeReview
              (putProgress d1 userId cardId p') m dueCard Hin) as [_ [_ Hrow]].
  rewrite Hid, findUnique_putProgress in Hrow.
  destruct Hrow as (_ & _ & _ & _ & _ & _ & Hgate).
  specialize (Hgate due Hdue Hnew). lia.
Qed.

Lemma reviewed_card_leaves_queue_until_due_witness :
  card_id (dc_card (newCardEntry secondCard)) <> "card-1"%string.
Proof.
  refine (reviewed_card_leaves_queue_until_due tickingClock 7 "card-1"%string good None
            twoCardsDb 0%nat 20%nat true true true 7%nat (newCardEntry secondCard) _ _).
  - vm_compute. reflexivity.
  - vm_compute. left. reflexivity.
Defined.

Lemma notYetDue_false_iff (now : Z) (p : UserTheoryProgress) :
  notYetDue now p = false
  <-> (forall due, p_dueDate p = Some due -> p_cardState p <> NEW -> due <= now).
Proof.
  split.
  - intros Hgate due Hdue Hnew. exact (notYetDue_false now due p Hgate Hdue Hnew).
  - intro Hdue. unfold notYetDue. destruct (p_dueDate p) as [due|]; [|reflexivity].
    rewrite floorDays_negative.
    destruct (p_cardState p) eqn:Hstate; simpl; try reflexivity;
      rewrite ?orb_false_r; apply Z.ltb_ge; apply Hdue; try reflexivity; discriminate.
Qed.

Lemma processCards_keeps clock now includeNew stateFilter cardsData :
  forall (processedCards : list DueCard) (k : nat) (dueCard : DueCard),
    In dueCard processedCards ->
    In dueCard (fst (processCards clock now includeNew stateFilter cardsData processedCards k)).
Proof.
  induction cardsData as [|[card entries] rest IH]; intros processedCards k dueCard Hin.
  - exact Hin.
  - simpl. unfold bind.
    destruct (processCard clock now includeNew stateFilter card entries k) as [pushed k1].
    apply IH. destruct pushed; [apply in_or_app; left|]; exact Hin.
Qed.

Lemma processCards_pushes clock now includeNew stateFilter cardsData :
  forall (processedCards : list DueCard) (k : nat) (card : TheoryCard)
         (entries : list UserTheoryProgress),
    In (card, entries) cardsData ->
    (forall m, exists dueCard,
        fst (processCard clock now includeNew stateFilter card entries m) = Some dueCard
        /\ dc_card dueCard = card) ->
    exists dueCard,
      In dueCard (fst (processCards clock now includeNew stateFilter cardsData processedCards k))
      /\ dc_card dueCard = card.
Proof.
  induction cardsData as [|[card' entries'] rest IH];
    intros processedCards k card entries Hin Hpush; [contradiction|].
  simpl. unfold bind.
  destruct Hin as [Heq|Hin].
  - injection Heq as -> ->.
    destruct (Hpush k) as [dueCard [Hsome Hcard]].
    destruct (processCard clock now includeNew stateFilter card entries k) as [pushed k1].
    simpl in Hsome. subst pushed. exists dueCard. split; [|exact Hcard].
    apply processCards_keeps. apply in_or_app. right. left. reflexivity.
  - destruct (processCard clock now includeNew stateFilter card' entries' k) as [pushed k1].
    exact (IH _ _ card entries Hin Hpush).
Qed.

Lemma processCards_length clock now includeNew stateFilter cardsData :
  forall (processedCards : list DueCard) (k : nat),
    (length (fst (processCards clock now includeNew stateFilter cardsData processedCards k))
     <= length processedCards + length cardsData)%nat.
Proof.
  induction cardsData as [|[card entries] rest IH]; intros processedCards k; simpl.
  - lia.
  - unfold bind.
    destruct (processCard clock now includeNew stateFilter card entries k) as [pushed k1].
    etransitivity; [apply IH|]. destruct pushed; rewrite ?length_app; simpl; lia.
Qed.

Lemma length_insertByPriority (x : DueCard) (l : list DueCard) :
  length (insertByPriority x l) = S (length l).
Proof.
  induction l as [|y l IH]; simpl; [reflexivity|].
  destruct (Qlt_le_dec (dc_priority x) (dc_priority y)); simpl; [rewrite IH|]; reflexivity.
Qed.

Lemma length_sortByPriority (l : list DueCard) :
  length (sortByPriority l) = length l.
Proof.
  unfold sortByPriority. induction l as [|x l IH]; simpl; [reflexivity|].
  rewrite length_insertByPriority, IH. reflexivity.
Qed.

(** X27. When the catalogue has no more cards than [limit], nothing due is
    missing from the queue: every card of the catalogue without a row, when
    new cards are asked for, and every card whose row is in a requested
    state and, unless it is NEW, is not ahead of its due date, has an entry
    in the queue. *)
Theorem small_catalogue_queue_is_complete :
  forall (clock : nat -> Z) (userId : Z) (limit : nat)
         (includeNew includeLearning includeReview : bool) (d : Db) (n : nat)
         (card : TheoryCard),
    (length (theoryCards d) <= limit)%nat ->
    In card (theoryCards d) ->
    match findUnique d userId (card_id card) with
    | None => includeNew = true
    | Some p =>
        requested includeNew includeLearning includeReview (p_cardState p) = true
        /\ (forall due, p_dueDate p = Some due -> p_cardState p <> NEW -> due <= clock n)
    end ->
    exists dueCard : DueCard,
      In dueCard
         (run (getDueCards clock userId limit includeNew includeLearning includeReview d) n)
      /\ dc_card dueCard = card.
Proof.
  intros clock userId limit includeNew includeLearning includeReview d n card
         Hsmall Hcard Hdue.
  unfold run, getDueCards, bind, ret, newDate.
  set (stateFilter := (if includeNew then [NEW] else [])
                      ++ (if includeLearning then [LEARNING; RELEARNING] else [])
                      ++ (if includeReview then [REVIEW] else [])).
  set (cardsData := findManyWithProgress d userId (limit * 2)).
  set (entries := match progressEntries d !! (userId, card_id card) with
                  | Some p => [p]
                  | None => []
                  end).
  assert (Hfetched : In (card, entries) cardsData).
  { subst cardsData entries. unfold findManyWithProgress.
    rewrite firstn_all2 by (rewrite length_map; lia).
    apply in_map_iff. exists card. split; [reflexivity|exact Hcard]. }
  assert (Hpush : forall m, exists dueCard,
             fst (processCard clock (clock n) includeNew stateFilter card entries m)
             = Some dueCard
             /\ dc_card dueCard = card).
  { intro m. subst entries. unfold processCard, findUnique in *.
    destruct (progressEntries d !! (userId, card_id card)) as [p|]; simpl.
    - destruct Hdue as [Hreq Hgate].
      subst stateFilter. rewrite includes_requested, Hreq. simpl.
      rewrite (proj2 (notYetDue_false_iff (clock n) p) Hgate).
      unfold bind, ret.
      destruct (calculatePriority clock DEFAULT_CONFIG (p_dueDate p) (p_easeFactor p)
                  (p_lapseCount p) (p_cardState p) m) as [priority m1].
      simpl. eexists. split; reflexivity.
    - rewrite Hdue. unfold bind, ret. simpl. eexists. split; reflexivity. }
  destruct (processCards_pushes clock (clock n) includeNew stateFilter cardsData []
              (S n) card entries Hfetched Hpush) as [dueCard [Hin Hcard']].
  pose proof (processCards_length clock (clock n) includeNew stateFilter cardsData []
                (S n)) as Hlen.
  destruct (processCards clock (clock n) includeNew stateFilter cardsData [] (S n))
    as [processedCards k1].
  simpl in *. exists dueCard. split; [|exact Hcard'].
  rewrite firstn_all2.
  - apply In_sortByPriority. exact Hin.
  - rewrite length_sortByPriority.
    assert (length cardsData <= length (theoryCards d))%nat.
    { subst cardsData. unfold findManyWithProgress.
      rewrite length_take, length_map. lia. }
    lia.
Qed.

Lemma small_catalogue_queue_is_complete_witness :
  exists dueCard : DueCard,
    In dueCard (run (getDueCards tickingClock 7 20 true true true (sampleDb anHourAgo)) 0%nat)
    /\ dc_card dueCard = sampleCard.
Proof.
  apply (small_catalogue_queue_is_complete tickingClock 7 20%nat true true true
           (sampleDb anHourAgo) 0%nat sampleCard).
  - simpl. lia.
  - left. reflexivity.
  - assert (Hfind : findUnique (sampleDb anHourAgo) 7 (card_id sampleCard)
                    = Some (sampleReviewRow anHourAgo)) by (vm_compute; reflexivity).
    rewrite Hfind. split; [reflexivity|].
    intros due Hdue _. injection Hdue as <-. vm_compute. discriminate.
Defined.
